(** * SpaceBridge: the dispatch state machines and the sample mailbox

    A shallow embedding of [SpaceBridge.py]: the lookup tables, the
    single-slot mailbox [SharedSpaceControlData], the axis pass of
    [BaseVirtualController.update] and the button passes of
    [Virtual3DMouseController.update] and [VirtualGamepadController.update].

    Python integers are unbounded, so they are [Z]; dictionaries that are only
    looked up are [gmap]s, dictionaries that are iterated keep their insertion
    order as association lists; the set of pressed names is a [gset]. Calls on
    the uinput device are recorded, in program order, in the list an update
    returns. *)

From Stdlib Require Import ZArith List Lia.
From stdpp Require Import base decidable option list strings pretty gmap.
Import ListNotations.

Local Open Scope string_scope.
Local Open Scope Z_scope.
Local Open Scope list_scope.

(** ** Input event codes

    The values [evdev.ecodes] exposes, i.e. those of Linux's
    [input-event-codes.h]. *)
Module ecodes.
Definition EV_SYN : Z := 0x00.
Definition EV_KEY : Z := 0x01.
Definition EV_ABS : Z := 0x03.
Definition ABS_X : Z := 0x00.
Definition ABS_Y : Z := 0x01.
Definition ABS_Z : Z := 0x02.
Definition ABS_RX : Z := 0x03.
Definition ABS_RY : Z := 0x04.
Definition ABS_RZ : Z := 0x05.
Definition BTN_MISC : Z := 0x100.
Definition BTN_LEFT : Z := 0x110.
Definition BTN_RIGHT : Z := 0x111.
Definition BTN_SIDE : Z := 0x113.
Definition BTN_EXTRA : Z := 0x114.
Definition BTN_FORWARD : Z := 0x115.
Definition BTN_A : Z := 0x130.
Definition BTN_B : Z := 0x131.
Definition BTN_X : Z := 0x133.
Definition BTN_Y : Z := 0x134.
Definition BTN_TL : Z := 0x136.
Definition BTN_TR : Z := 0x137.
Definition BTN_TL2 : Z := 0x138.
Definition BTN_TR2 : Z := 0x139.
Definition BTN_SELECT : Z := 0x13a.
Definition BTN_START : Z := 0x13b.
Definition BTN_THUMBL : Z := 0x13d.
Definition BTN_THUMBR : Z := 0x13e.
Definition BTN_GEAR_UP : Z := 0x151.
Definition BTN_DPAD_UP : Z := 0x220.
Definition BTN_DPAD_DOWN : Z := 0x221.
Definition BTN_DPAD_LEFT : Z := 0x222.
Definition BTN_DPAD_RIGHT : Z := 0x223.
(** [BTN_TRIGGER_HAPPYn], for n from 1 to 40. *)
Definition BTN_TRIGGER_HAPPY (n : Z) : Z := 0x2c0 + (n - 1).
End ecodes.
Import ecodes.

(** ** Module-level constants and tables *)

Definition AXIS_SCALE : Z := 20.
Definition HIGH_LEVEL_EVENT_THRESHOLD : Z := 0x20000.
Definition APPL_FUNC_START : Z := 0x20020.

Definition EVENT_ID_TO_NAME_items : list (Z * string) :=
    [ (-1, "NOTHING_CHANGED");
      (0, "SC_OK"); (1, "SC_COMMUNICATION_ERROR"); (2, "SC_WRONG_DEVICE_INDEX");
      (3, "SC_PARAMETER_OUT_OF_0RANGE"); (4, "SC_FILE_IO_ERROR");
      (5, "SC_KEYSTROKE_ERROR"); (6, "SC_APPL_NOT_FOUND");
      (7, "SC_REGISTRY_ERROR"); (8, "SC_NOT_SUPPORTED");
      (9, "SC_EXEC_CMD_ERROR"); (10, "SC_THREAD_ERROR"); (11, "SC_WRONG_USER");
      (0x20020, "APPL_FUNC_START");
      (0x20000, "DEV_BASIC_SETTINGS_REQ"); (0x20001, "DEV_ADVANCED_SETTINGS_REQ");
      (0x20002, "DEV_DEV_PARS_CHANGED"); (0x20003, "DEV_UNKNOWN_COMMAND_BYTE");
      (0x20004, "DEV_PARAM_OUT_OF_RANGE"); (0x20005, "DEV_PARSE_ERROR");
      (0x20006, "DEV_INTERNAL_DEVICE_ERROR"); (0x20007, "DEV_WRONG_TRANSCEIVER_ID");
      (0x20008, "DEV_BUFFER_OVERFLOW"); (0x20009, "DEV_FRONT");
      (0x2000A, "DEV_RIGHT"); (0x2000B, "DEV_TOP"); (0x2000C, "DEV_FIT");
      (0x2000D, "DEV_WHEEL_LEFT"); (0x2000E, "DEV_WHEEL_RIGHT");
      (0x2000F, "EVT_HNDL_SENS_DLG"); (0x20010, "EVT_HNDL_THRESH_DLG");
      (0x20011, "EVT_HNDL_LCD_DLG"); (0x20012, "EVT_HNDL_LEDS_DLG");
      (0x20013, "EVT_APPL_IN_FRGRND"); (0x20014, "EVT_HNDL_KBD_DLG");
      (0x20015, "EVT_HNDL_WFL_DLG"); (0x20016, "DEV_BACK");
      (0x20017, "DEV_LEFT"); (0x20018, "DEV_BOTTOM"); (0x20019, "DEV_CTRL") ].

Definition EVENT_ID_TO_NAME : gmap Z string :=
  list_to_map EVENT_ID_TO_NAME_items.

Definition EVDEV_3DMOUSE_LOW_LEVEL_BUTTON_MAP : gmap string Z :=
  list_to_map
    [ ("SC_KEY_1", BTN_MISC + 0); ("SC_KEY_2", BTN_MISC + 1);
      ("SC_KEY_3", BTN_MISC + 2); ("SC_KEY_4", BTN_MISC + 3);
      ("SC_KEY_5", BTN_MISC + 4); ("SC_KEY_6", BTN_MISC + 5);
      ("SC_KEY_CTRL", BTN_MISC + 6); ("SC_KEY_ALT", BTN_MISC + 7);
      ("SC_KEY_SHIFT", BTN_MISC + 8); ("SC_KEY_ESC", BTN_MISC + 9);
      ("SC_KEY_FRONT", BTN_MISC + 10); ("SC_KEY_RIGHT", BTN_MISC + 11);
      ("SC_KEY_TOP", BTN_MISC + 12); ("SC_KEY_FIT", BTN_MISC + 13);
      ("SC_KEY_2D3D", BTN_MISC + 14);
      ("SC_KEY_1_B", BTN_MISC + 17); ("SC_KEY_2_B", BTN_MISC + 18);
      ("SC_KEY_3_B", BTN_MISC + 19); ("SC_KEY_4_B", BTN_MISC + 20);
      ("SC_KEY_5_B", BTN_MISC + 21); ("SC_KEY_6_B", BTN_MISC + 22);
      ("SC_KEY_CTRL_B", BTN_MISC + 23); ("SC_KEY_ALT_B", BTN_MISC + 24);
      ("SC_KEY_SHIFT_B", BTN_MISC + 25); ("SC_KEY_ESC_B", BTN_MISC + 26);
      ("SC_KEY_FRONT_B", BTN_MISC + 27); ("SC_KEY_RIGHT_B", BTN_MISC + 28);
      ("SC_KEY_TOP_B", BTN_MISC + 29); ("SC_KEY_FIT_B", BTN_MISC + 30);
      ("SC_KEY_2D3D_B", BTN_MISC + 31) ].

Definition HIGH_LEVEL_EVENT_MAP_FOR_UINPUT_items : list (Z * Z) :=
    [ (0x20009, BTN_SIDE); (0x2000A, BTN_EXTRA); (0x2000B, BTN_FORWARD);
      (0x2000C, BTN_GEAR_UP); (0x20016, BTN_SIDE + 1); (0x20017, BTN_EXTRA + 1);
      (0x20018, BTN_FORWARD + 1);
      (0x2000D, BTN_LEFT); (0x2000E, BTN_RIGHT);
      (0x2000F, BTN_MISC + 34); (0x20010, BTN_MISC + 35);
      (0x20011, BTN_MISC + 36); (0x20012, BTN_MISC + 37);
      (0x20013, BTN_MISC + 38); (0x20014, BTN_MISC + 39);
      (0x20015, BTN_MISC + 40); (0x20019, BTN_MISC + 41) ].

Definition HIGH_LEVEL_EVENT_MAP_FOR_UINPUT : gmap Z Z :=
  list_to_map HIGH_LEVEL_EVENT_MAP_FOR_UINPUT_items.

Definition EVDEV_GAMEPAD_BUTTON_MAP : gmap string Z :=
  list_to_map
    [ ("SC_KEY_1", BTN_A); ("SC_KEY_2", BTN_B); ("SC_KEY_3", BTN_X);
      ("SC_KEY_4", BTN_Y); ("SC_KEY_5", BTN_TL); ("SC_KEY_6", BTN_TR);
      ("SC_KEY_CTRL", BTN_SELECT); ("SC_KEY_ALT", BTN_START);
      ("SC_KEY_SHIFT", BTN_THUMBL); ("SC_KEY_ESC", BTN_THUMBR);
      ("SC_KEY_FRONT", BTN_DPAD_UP); ("SC_KEY_RIGHT", BTN_DPAD_RIGHT);
      ("SC_KEY_TOP", BTN_DPAD_DOWN); ("SC_KEY_FIT", BTN_DPAD_LEFT);
      ("SC_KEY_2D3D", BTN_TRIGGER_HAPPY 1);
      ("SC_KEY_1_B", BTN_TRIGGER_HAPPY 4); ("SC_KEY_2_B", BTN_TRIGGER_HAPPY 5);
      ("SC_KEY_3_B", BTN_TRIGGER_HAPPY 6); ("SC_KEY_4_B", BTN_TRIGGER_HAPPY 7);
      ("SC_KEY_5_B", BTN_TRIGGER_HAPPY 8); ("SC_KEY_6_B", BTN_TRIGGER_HAPPY 9);
      ("SC_KEY_CTRL_B", BTN_TRIGGER_HAPPY 10); ("SC_KEY_ALT_B", BTN_TRIGGER_HAPPY 11);
      ("SC_KEY_SHIFT_B", BTN_TRIGGER_HAPPY 12); ("SC_KEY_ESC_B", BTN_TRIGGER_HAPPY 13);
      ("SC_KEY_FRONT_B", BTN_TRIGGER_HAPPY 14); ("SC_KEY_RIGHT_B", BTN_TRIGGER_HAPPY 15);
      ("SC_KEY_TOP_B", BTN_TRIGGER_HAPPY 16); ("SC_KEY_FIT_B", BTN_TRIGGER_HAPPY 17);
      ("SC_KEY_2D3D_B", BTN_TRIGGER_HAPPY 18);
      ("SC_DEV_WHEEL_LEFT", BTN_TL2); ("SC_DEV_WHEEL_RIGHT", BTN_TR2);
      ("SC_EVT_HNDL_SENS_DLG", BTN_TRIGGER_HAPPY 19);
      ("SC_EVT_HNDL_THRESH_DLG", BTN_TRIGGER_HAPPY 20);
      ("SC_EVT_HNDL_LCD_DLG", BTN_TRIGGER_HAPPY 21);
      ("SC_EVT_HNDL_LEDS_DLG", BTN_TRIGGER_HAPPY 22);
      ("SC_EVT_APPL_IN_FRGRND", BTN_TRIGGER_HAPPY 23);
      ("SC_EVT_HNDL_KBD_DLG", BTN_TRIGGER_HAPPY 24);
      ("SC_EVT_HNDL_WFL_DLG", BTN_TRIGGER_HAPPY 25);
      ("SC_DEV_CTRL", BTN_TRIGGER_HAPPY 26) ].

(** Iterated by both dispatchers, so kept in insertion order. Bit positions 15
    and 16 (the panel and menu buttons) have no entry. *)
Definition BUTTON_BIT_MAP : list (Z * string) :=
  [ (0, "SC_KEY_1"); (1, "SC_KEY_2"); (2, "SC_KEY_3"); (3, "SC_KEY_4");
    (4, "SC_KEY_5"); (5, "SC_KEY_6"); (6, "SC_KEY_CTRL"); (7, "SC_KEY_ALT");
    (8, "SC_KEY_SHIFT"); (9, "SC_KEY_ESC"); (10, "SC_KEY_FRONT");
    (11, "SC_KEY_RIGHT"); (12, "SC_KEY_TOP"); (13, "SC_KEY_FIT");
    (14, "SC_KEY_2D3D");
    (17, "SC_KEY_1_B"); (18, "SC_KEY_2_B"); (19, "SC_KEY_3_B");
    (20, "SC_KEY_4_B"); (21, "SC_KEY_5_B"); (22, "SC_KEY_6_B");
    (23, "SC_KEY_CTRL_B"); (24, "SC_KEY_ALT_B"); (25, "SC_KEY_SHIFT_B");
    (26, "SC_KEY_ESC_B"); (27, "SC_KEY_FRONT_B"); (28, "SC_KEY_RIGHT_B");
    (29, "SC_KEY_TOP_B"); (30, "SC_KEY_FIT_B"); (31, "SC_KEY_2D3D_B") ].

(** [BUTTON_BIT_MAP.values()] *)
Definition BUTTON_BIT_MAP_values : list string := map snd BUTTON_BIT_MAP.

(** [BUTTON_BIT_MAP[bit_position]] *)
Definition BUTTON_BIT_MAP_get (bit_position : Z) : option string :=
  snd <$> find (fun kv => bool_decide (fst kv = bit_position)) BUTTON_BIT_MAP.

(** ** The sample dictionary built by [ScDaemonComm.fetch_data]

    Always the same eleven keys, hence a record. *)
Module ScData.
Record sc_data_result : Type := mk {
  x : Z; y : Z; z : Z;
  a : Z; b : Z; c : Z;
  traLmh : Z; rotLmh : Z;
  event : Z;
  tvSec : Z; tvUsec : Z
}.
End ScData.
Abbreviation Sample := ScData.sc_data_result.

(** ** Calls on the uinput device *)

Inductive AxisKey : Type := KX | KY | KZ | KA | KB | KC.

Global Instance AxisKey_eq_dec : EqDecision AxisKey.
Proof. solve_decision. Defined.

(** Where in [update] a [write] was issued: the axis loop (with its key), the
    high-level block (with the event value it names in its log line), or the
    low-level loop (with [sc_button_name]). *)
Inductive Origin : Type :=
| FromAxis (axis : AxisKey)
| FromHighLevel (event_value : Z)
| FromLowLevel (sc_button_name : string).

Inductive HidCall : Type :=
| Write (etype code value : Z) (origin : Origin)
| Syn.

Global Instance Origin_eq_dec : EqDecision Origin.
Proof. solve_decision. Defined.

Global Instance HidCall_eq_dec : EqDecision HidCall.
Proof. solve_decision. Defined.

(** The uinput handle; [None] when [_setup_uinput] failed. *)
Inductive UInput : Type := UInputDevice.

(** ** [SharedSpaceControlData]

    [_lock] makes the body of [set_data] and the locked part of [get_data]
    atomic, so each is one transition of the slot. [_new_data_event] is the
    flag of the [threading.Event]. *)
Module SharedSpaceControlData.

Record t : Type := mk {
  _data : option Sample;
  _new_data_event : bool
}.

Definition init : t := mk None false.

Definition set_data (self : t) (data : Sample) : t :=
  mk (Some data) true.

(** [Event.wait(timeout)] when no [set_data] runs while it waits: it returns
    [True] at once if the flag is set and [False] once the timeout has
    elapsed otherwise. *)
Definition wait (self : t) : bool := _new_data_event self.

(** A sample dictionary has eleven keys, so it is truthy, and its [copy()]
    has the same items. The value of [wait] is dropped, as in the source. *)
Definition get_data (self : t) : t * option Sample :=
  let _ := wait self in
  let data_copy := match _data self with
                   | Some d => Some d
                   | None => None
                   end in
  (mk (_data self) false, data_copy).

(** A schedule of calls on one mailbox that do not overlap: each call runs
    to its end before the next one starts. *)
Inductive Op : Type := Publish (data : Sample) | Take.

(** The values returned by the [get_data] calls of a schedule, in order, each
    with what its [wait] returned. *)
Fixpoint run (self : t) (ops : list Op) : t * list (bool * option Sample) :=
  match ops with
  | [] => (self, [])
  | Publish d :: ops => run (set_data self d) ops
  | Take :: ops =>
      let signalled := wait self in
      let '(self', r) := get_data self in
      let '(final, rs) := run self' ops in
      (final, (signalled, r) :: rs)
  end.

End SharedSpaceControlData.

(** ** [BaseVirtualController] *)

(** [last_axis_values]: a dictionary that always has the six axis keys. *)
Record AxisValues : Type := mkAxisValues {
  ax_x : Z; ax_y : Z; ax_z : Z;
  ax_a : Z; ax_b : Z; ax_c : Z
}.

Definition axis_get (v : AxisValues) (k : AxisKey) : Z :=
  match k with
  | KX => ax_x v | KY => ax_y v | KZ => ax_z v
  | KA => ax_a v | KB => ax_b v | KC => ax_c v
  end.

Definition axis_set (v : AxisValues) (kv : AxisKey * Z) : AxisValues :=
  match kv with
  | (KX, n) => mkAxisValues n (ax_y v) (ax_z v) (ax_a v) (ax_b v) (ax_c v)
  | (KY, n) => mkAxisValues (ax_x v) n (ax_z v) (ax_a v) (ax_b v) (ax_c v)
  | (KZ, n) => mkAxisValues (ax_x v) (ax_y v) n (ax_a v) (ax_b v) (ax_c v)
  | (KA, n) => mkAxisValues (ax_x v) (ax_y v) (ax_z v) n (ax_b v) (ax_c v)
  | (KB, n) => mkAxisValues (ax_x v) (ax_y v) (ax_z v) (ax_a v) n (ax_c v)
  | (KC, n) => mkAxisValues (ax_x v) (ax_y v) (ax_z v) (ax_a v) (ax_b v) n
  end.

Definition evdev_abs_map (k : AxisKey) : Z :=
  match k with
  | KX => ABS_X | KY => ABS_Y | KZ => ABS_Z
  | KA => ABS_RX | KB => ABS_RY | KC => ABS_RZ
  end.

Module BaseVirtualController.

Record t : Type := mk {
  uinput_device : option UInput;
  last_axis_values : AxisValues
}.

(** [__init__]; [dev] is what [_setup_uinput] left in [uinput_device]. *)
Definition init (dev : option UInput) : t :=
  mk dev (mkAxisValues 0 0 0 0 0 0).

(** The dictionary literal of [update], in insertion order. *)
Definition current_axis_values (data : Sample) : list (AxisKey * Z) :=
  [ (KX, ScData.x data * AXIS_SCALE);
    (KY, ScData.y data * AXIS_SCALE);
    (KZ, ScData.z data * AXIS_SCALE);
    (KA, ScData.a data * AXIS_SCALE);
    (KB, ScData.b data * AXIS_SCALE);
    (KC, ScData.c data * AXIS_SCALE) ].

(** One iteration of the axis loop, on (calls so far, [motion_changed]). *)
Definition axis_step (last : AxisValues) (acc : list HidCall * bool)
    (item : AxisKey * Z) : list HidCall * bool :=
  let '(axis, value) := item in
  if bool_decide (value <> axis_get last axis)
  then (fst acc ++ [Write EV_ABS (evdev_abs_map axis) value (FromAxis axis)], true)
  else acc.

(** Returns the object, the device calls, and the returned pair
    [(motion_changed, current_axis_values)]; the latter is [(False, {})]
    without a device. *)
Definition update (self : t) (data : Sample)
    : t * list HidCall * (bool * list (AxisKey * Z)) :=
  match uinput_device self with
  | None => (self, [], (false, []))
  | Some _ =>
      let cur := current_axis_values data in
      let '(calls, motion_changed) :=
        foldl (axis_step (last_axis_values self)) ([], false) cur in
      (mk (uinput_device self) (foldl axis_set (last_axis_values self) cur),
       calls, (motion_changed, cur))
  end.

End BaseVirtualController.

(** [any(abs(val) > 0 for val in current_axis_values.values())] *)
Definition is_any_axis_moving (current_axis_values : list (AxisKey * Z)) : bool :=
  existsb (fun item => bool_decide (Z.abs (snd item) > 0)) current_axis_values.

(** [current_high_level_event], shared by both dispatchers. *)
Definition current_high_level_event (current_event_value : Z) (moving : bool)
    : option Z :=
  if bool_decide (current_event_value >= HIGH_LEVEL_EVENT_THRESHOLD) && negb moving
  then Some current_event_value
  else None.

(** The press/release decision of a low-level loop body. *)
Definition edge_calls (code : Z) (origin : Origin)
    (is_currently_pressed was_previously_pressed : bool) : list HidCall :=
  if is_currently_pressed && negb was_previously_pressed
  then [Write EV_KEY code 1 origin]
  else if negb is_currently_pressed && was_previously_pressed
  then [Write EV_KEY code 0 origin]
  else [].

(** ** [Virtual3DMouseController] *)

(** The loop that fills [current_low_level_button_names]: the names of the
    table's bit positions that are set in the event value. *)
Definition pressed_names (current_event_value : Z) : gset string :=
  foldl (fun names item =>
           if bool_decide (Z.land (Z.shiftr current_event_value (fst item)) 1 <> 0)
           then {[ snd item ]} ∪ names
           else names)
        ∅ BUTTON_BIT_MAP.

Module Virtual3DMouseController.

Record t : Type := mk {
  base : BaseVirtualController.t;
  last_low_level_button_state : gmap string bool;
  last_high_level_event_state : option Z
}.

Definition init (dev : option UInput) : t :=
  mk (BaseVirtualController.init dev) ∅ None.

(** "Release the previous high-level event if it's no longer active" *)
Definition high_level_release (last current : option Z) : list HidCall :=
  match last with
  | Some prev =>
      if bool_decide (Some prev <> current)
         && bool_decide (is_Some (HIGH_LEVEL_EVENT_MAP_FOR_UINPUT !! prev))
      then match HIGH_LEVEL_EVENT_MAP_FOR_UINPUT !! prev with
           | Some evdev_button_code_to_release =>
               [Write EV_KEY evdev_button_code_to_release 0 (FromHighLevel prev)]
           | None => []
           end
      else []
  | None => []
  end.

(** "Press the current high-level event if it's new and active" *)
Definition high_level_press (last current : option Z) : list HidCall :=
  match current with
  | Some cur =>
      if bool_decide (Some cur <> last)
         && bool_decide (is_Some (HIGH_LEVEL_EVENT_MAP_FOR_UINPUT !! cur))
      then match HIGH_LEVEL_EVENT_MAP_FOR_UINPUT !! cur with
           | Some evdev_button_code =>
               [Write EV_KEY evdev_button_code 1 (FromHighLevel cur)]
           | None => []
           end
      else []
  | None => []
  end.

Definition current_low_level_button_names (current_event_value : Z)
    (high : option Z) (moving : bool) : gset string :=
  if bool_decide (current_event_value > 0)
     && bool_decide (current_event_value < HIGH_LEVEL_EVENT_THRESHOLD)
     && bool_decide (high = None) && negb moving
  then pressed_names current_event_value
  else ∅.

(** One iteration of the loop over [BUTTON_BIT_MAP.values()], on
    ([last_low_level_button_state], calls so far). *)
Definition low_level_step (names : gset string)
    (acc : gmap string bool * list HidCall) (sc_button_name : string)
    : gmap string bool * list HidCall :=
  match EVDEV_3DMOUSE_LOW_LEVEL_BUTTON_MAP !! sc_button_name with
  | Some evdev_button_code =>
      let is_currently_pressed := bool_decide (sc_button_name ∈ names) in
      let was_previously_pressed := default false (fst acc !! sc_button_name) in
      (<[ sc_button_name := is_currently_pressed ]> (fst acc),
       snd acc ++ edge_calls evdev_button_code (FromLowLevel sc_button_name)
                             is_currently_pressed was_previously_pressed)
  | None => acc
  end.

(** The logging calls are left out: they touch neither the object nor the
    device. *)
Definition update (self : t) (data : Sample) : t * list HidCall :=
  let '(base', axis_calls, (motion_changed, current_axis_values)) :=
    BaseVirtualController.update (base self) data in
  match BaseVirtualController.uinput_device base' with
  | None =>
      (mk base' (last_low_level_button_state self) (last_high_level_event_state self),
       axis_calls)
  | Some _ =>
      let current_event_value := ScData.event data in
      let moving := is_any_axis_moving current_axis_values in
      let high := current_high_level_event current_event_value moving in
      let last := last_high_level_event_state self in
      let high_calls := high_level_release last high ++ high_level_press last high in
      let names := current_low_level_button_names current_event_value high moving in
      let '(low_state, low_calls) :=
        foldl (low_level_step names) (last_low_level_button_state self, [])
              BUTTON_BIT_MAP_values in
      (mk base' low_state high,
       axis_calls ++ high_calls ++ low_calls ++ [Syn])
  end.

(** The dispatch loop feeding one controller: the object after the samples,
    and the device calls of each cycle. *)
Fixpoint run (self : t) (samples : list Sample) : t * list (list HidCall) :=
  match samples with
  | [] => (self, [])
  | data :: samples =>
      let '(self', calls) := update self data in
      let '(final, rest) := run self' samples in
      (final, calls :: rest)
  end.

End Virtual3DMouseController.

(** ** Module namespace and exceptions *)

Inductive PyExc : Type :=
| NameError (name : string)
| KeyError (key : Z)
| AttributeError (attr : string).

Inductive Outcome : Type :=
| Returned
| Raised (exc : PyExc).

(** What a global name is bound to, as far as a loop over [.items()] of
    integer pairs cares. *)
Inductive PyObj : Type :=
| PyDictIntInt (items : list (Z * Z))
| PyOther.

(** Every name bound at module level of [SpaceBridge.py]: imports,
    assignments, functions, classes, and the variables of the main block.
    None of the built-in names is [GAMEPAD_BIT_TO_EVDEV_CODE] either. *)
Definition module_globals : list (string * PyObj) :=
  [ ("ctypes", PyOther); ("time", PyOther); ("threading", PyOther);
    ("sys", PyOther); ("os", PyOther); ("collections", PyOther);
    ("UInput", PyOther); ("ecodes", PyOther); ("AbsInfo", PyOther);
    ("logging", PyOther); ("LOGLEVEL", PyOther); ("setup_logging", PyOther);
    ("logger", PyOther); ("SC_LIB_PATH", PyOther);
    ("ENABLE_3DMOUSE_VIRTUAL_DEVICE", PyOther);
    ("ENABLE_GAMEPAD_VIRTUAL_DEVICE", PyOther);
    ("UINPUT_3DMOUSE_NAME", PyOther); ("UINPUT_3DMOUSE_VENDOR_ID", PyOther);
    ("UINPUT_3DMOUSE_PRODUCT_ID", PyOther);
    ("UINPUT_GAMEPAD_NAME", PyOther); ("UINPUT_GAMEPAD_VENDOR_ID", PyOther);
    ("UINPUT_GAMEPAD_PRODUCT_ID", PyOther);
    ("AXIS_SCALE", PyOther); ("HIGH_LEVEL_EVENT_THRESHOLD", PyOther);
    ("APPL_FUNC_START", PyOther); ("EVENT_ID_TO_NAME", PyOther);
    ("ScStdData", PyOther);
    ("EVDEV_3DMOUSE_LOW_LEVEL_BUTTON_MAP", PyOther);
    ("HIGH_LEVEL_EVENT_MAP_FOR_UINPUT",
     PyDictIntInt HIGH_LEVEL_EVENT_MAP_FOR_UINPUT_items);
    ("ALL_3DMOUSE_UINPUT_BUTTONS", PyOther);
    ("EVDEV_GAMEPAD_BUTTON_MAP", PyOther);
    ("ALL_GAMEPAD_UINPUT_BUTTONS", PyOther);
    ("BUTTON_BIT_MAP", PyOther); ("decode_event", PyOther);
    ("ScDaemonComm", PyOther); ("SharedSpaceControlData", PyOther);
    ("SpaceControlDataAcquirer", PyOther);
    ("BaseVirtualController", PyOther);
    ("Virtual3DMouseController", PyOther);
    ("VirtualGamepadController", PyOther);
    ("config_to_load", PyOther); ("sc_dll", PyOther); ("daemon_comm", PyOther);
    ("shared_data_container", PyOther); ("data_acquirer_thread", PyOther);
    ("mouse_controller", PyOther); ("gamepad_controller", PyOther);
    ("new_data", PyOther) ].

(** Reading a global name at run time. *)
Definition load_global (name : string) : option PyObj :=
  snd <$> find (fun kv => bool_decide (fst kv = name)) module_globals.

(** ** [VirtualGamepadController] *)

Module VirtualGamepadController.

Record t : Type := mk {
  base : BaseVirtualController.t;
  last_button_state : gmap string bool;
  last_high_level_event_state : option Z
}.

Definition init (dev : option UInput) : t :=
  mk (BaseVirtualController.init dev) ∅ None.

(** The chain of comparisons that derives [gamepad_map_key] from the name in
    [EVENT_ID_TO_NAME]; [None] is Python's [None]. *)
Definition gamepad_map_key (event_name_from_map : option string) : option string :=
  match event_name_from_map with
  | Some n =>
      if bool_decide (n = "DEV_WHEEL_LEFT") then Some "SC_DEV_WHEEL_LEFT"
      else if bool_decide (n = "DEV_WHEEL_RIGHT") then Some "SC_DEV_WHEEL_RIGHT"
      else if bool_decide (n = "DEV_CTRL") then Some "SC_DEV_CTRL"
      else if bool_decide
                (n ∈ [ "EVT_HNDL_SENS_DLG"; "EVT_HNDL_THRESH_DLG";
                       "EVT_HNDL_LCD_DLG"; "EVT_HNDL_LEDS_DLG";
                       "EVT_APPL_IN_FRGRND"; "EVT_HNDL_KBD_DLG";
                       "EVT_HNDL_WFL_DLG" ])
      then Some n
      else None
  | None => None
  end.

(** [if gamepad_map_key and gamepad_map_key in EVDEV_GAMEPAD_BUTTON_MAP]: the
    button code of a high-level event value, when the test passes. *)
Definition high_level_button (event_value : Z) : option Z :=
  match gamepad_map_key (EVENT_ID_TO_NAME !! event_value) with
  | Some key =>
      if bool_decide (key <> EmptyString) then EVDEV_GAMEPAD_BUTTON_MAP !! key else None
  | None => None
  end.

Definition high_level_release (last current : option Z) : list HidCall :=
  match last with
  | Some prev =>
      if bool_decide (Some prev <> current)
      then match high_level_button prev with
           | Some evdev_button_code_to_release =>
               [Write EV_KEY evdev_button_code_to_release 0 (FromHighLevel prev)]
           | None => []
           end
      else []
  | None => []
  end.

Definition high_level_press (last current : option Z) : list HidCall :=
  match current with
  | Some cur =>
      if bool_decide (Some cur <> last)
      then match high_level_button cur with
           | Some evdev_button_code_to_press =>
               [Write EV_KEY evdev_button_code_to_press 1 (FromHighLevel cur)]
           | None => []
           end
      else []
  | None => []
  end.

(** The loop that fills [current_pressed_bit_positions]. *)
Definition pressed_bits (current_event_value : Z) : gset Z :=
  foldl (fun bits item =>
           if bool_decide (Z.land (Z.shiftr current_event_value (fst item)) 1 <> 0)
           then {[ fst item ]} ∪ bits
           else bits)
        ∅ BUTTON_BIT_MAP.

Definition current_pressed_bit_positions (current_event_value : Z)
    (high : option Z) (moving : bool) : gset Z :=
  if bool_decide (current_event_value > 0)
     && bool_decide (current_event_value < HIGH_LEVEL_EVENT_THRESHOLD)
     && bool_decide (high = None) && negb moving
  then pressed_bits current_event_value
  else ∅.

(** The loop over the items of the bit-to-code table, were that table bound;
    [BUTTON_BIT_MAP[bit_position]] raises [KeyError] on a missing key. *)
Fixpoint low_level_loop (bits : gset Z) (items : list (Z * Z))
    (state : gmap string bool) (calls : list HidCall)
    : gmap string bool * list HidCall * Outcome :=
  match items with
  | [] => (state, calls, Returned)
  | (bit_position, evdev_button_code) :: items =>
      match BUTTON_BIT_MAP_get bit_position with
      | None => (state, calls, Raised (KeyError bit_position))
      | Some sc_button_name =>
          let is_currently_pressed := bool_decide (bit_position ∈ bits) in
          let was_previously_pressed := default false (state !! sc_button_name) in
          low_level_loop bits items
            (<[ sc_button_name := is_currently_pressed ]> state)
            (calls ++ edge_calls evdev_button_code (FromLowLevel sc_button_name)
                                 is_currently_pressed was_previously_pressed)
      end
  end.

(** The object as the call leaves it, the device calls made, and how the call
    ended. *)
Definition update (self : t) (data : Sample) : t * list HidCall * Outcome :=
  let '(base', axis_calls, (motion_changed, current_axis_values)) :=
    BaseVirtualController.update (base self) data in
  match BaseVirtualController.uinput_device base' with
  | None =>
      (mk base' (last_button_state self) (last_high_level_event_state self),
       axis_calls, Returned)
  | Some _ =>
      let current_event_value := ScData.event data in
      let moving := is_any_axis_moving current_axis_values in
      let high := current_high_level_event current_event_value moving in
      let last := last_high_level_event_state self in
      let high_calls := high_level_release last high ++ high_level_press last high in
      let bits := current_pressed_bit_positions current_event_value high moving in
      match load_global "GAMEPAD_BIT_TO_EVDEV_CODE" with
      | None =>
          (mk base' (last_button_state self) high,
           axis_calls ++ high_calls,
           Raised (NameError "GAMEPAD_BIT_TO_EVDEV_CODE"))
      | Some PyOther =>
          (mk base' (last_button_state self) high,
           axis_calls ++ high_calls,
           Raised (AttributeError "items"))
      | Some (PyDictIntInt items) =>
          let '(state, low_calls, outcome) :=
            low_level_loop bits items (last_button_state self) [] in
          match outcome with
          | Returned =>
              (mk base' state high,
               axis_calls ++ high_calls ++ low_calls ++ [Syn], Returned)
          | Raised exc =>
              (mk base' state high,
               axis_calls ++ high_calls ++ low_calls, Raised exc)
          end
      end
  end.

End VirtualGamepadController.

(** ** Reading a cycle's device calls *)

Definition is_axis_write (c : HidCall) : bool :=
  match c with
  | Write etype _ _ _ => bool_decide (etype = EV_ABS)
  | Syn => false
  end.

(** A button press or release: a key write. *)
Definition is_key_write (c : HidCall) : bool :=
  match c with
  | Write etype _ _ _ => bool_decide (etype = EV_KEY)
  | Syn => false
  end.

Definition is_press (c : HidCall) : bool :=
  match c with
  | Write etype _ value _ => bool_decide (etype = EV_KEY) && bool_decide (value = 1)
  | Syn => false
  end.

Definition is_release (c : HidCall) : bool :=
  match c with
  | Write etype _ value _ => bool_decide (etype = EV_KEY) && bool_decide (value = 0)
  | Syn => false
  end.

Definition is_high_level_write (c : HidCall) : bool :=
  match c with
  | Write _ _ _ (FromHighLevel _) => true
  | _ => false
  end.

Definition is_low_level_write (c : HidCall) : bool :=
  match c with
  | Write _ _ _ (FromLowLevel _) => true
  | _ => false
  end.

Definition axis_writes (calls : list HidCall) : list HidCall :=
  List.filter is_axis_write calls.

Definition key_writes (calls : list HidCall) : list HidCall :=
  List.filter is_key_write calls.

(** The scaled value of an axis differs from the one in [last_axis_values]:
    the delta of the specification. *)
Definition axis_delta_nonzero (last : AxisValues) (data : Sample) : bool :=
  existsb (fun item => bool_decide (snd item <> axis_get last (fst item)))
          (BaseVirtualController.current_axis_values data).

Definition some_device : option UInput := Some UInputDevice.

Definition sample (x y z a b c event : Z) : Sample :=
  ScData.mk x y z a b c 0 0 event 0 0.

(** The calls of one low-level loop iteration of the 3D mouse, read against a
    given button state. *)
Definition low_level_edge (names : gset string) (state : gmap string bool)
    (sc_button_name : string) : list HidCall :=
  snd (Virtual3DMouseController.low_level_step names (state, []) sc_button_name).

(** The button state the low-level loop of the 3D mouse leaves. *)
Definition low_level_state (names : gset string) (state : gmap string bool)
    (l : list string) : gmap string bool :=
  foldl (fun m n => fst (Virtual3DMouseController.low_level_step names (m, []) n))
        state l.

(** The same sample as far as [update] reads it. *)
Definition same_axes_and_event (d d' : Sample) : Prop :=
  ScData.x d = ScData.x d' /\ ScData.y d = ScData.y d' /\
  ScData.z d = ScData.z d' /\ ScData.a d = ScData.a d' /\
  ScData.b d = ScData.b d' /\ ScData.c d = ScData.c d' /\
  ScData.event d = ScData.event d'.

Definition with_event (d : Sample) (e : Z) : Sample :=
  ScData.mk (ScData.x d) (ScData.y d) (ScData.z d)
            (ScData.a d) (ScData.b d) (ScData.c d)
            (ScData.traLmh d) (ScData.rotLmh d) e
            (ScData.tvSec d) (ScData.tvUsec d).

(** The call the axis loop makes for one item. *)
Definition axis_call (last : AxisValues) (item : AxisKey * Z) : list HidCall :=
  if bool_decide (snd item <> axis_get last (fst item))
  then [Write EV_ABS (evdev_abs_map (fst item)) (snd item) (FromAxis (fst item))]
  else [].

(** The six scaled values of a sample, as [last_axis_values] stores them. *)
Definition scaled (data : Sample) : AxisValues :=
  mkAxisValues (ScData.x data * AXIS_SCALE) (ScData.y data * AXIS_SCALE)
               (ScData.z data * AXIS_SCALE) (ScData.a data * AXIS_SCALE)
               (ScData.b data * AXIS_SCALE) (ScData.c data * AXIS_SCALE).

(** ** [decode_event] *)

(** The loop that fills [pressed_buttons]: the names of the set table bits,
    in table order. *)
Definition pressed_buttons (event_value : Z) : list string :=
  foldl (fun acc item =>
           if bool_decide (Z.land (Z.shiftr event_value (fst item)) 1 <> 0)
           then acc ++ [snd item]
           else acc)
        [] BUTTON_BIT_MAP.

(** An f-string renders an integer in decimal, which is what [pretty] does. *)
Definition decode_event (event_value : Z) : string :=
  match EVENT_ID_TO_NAME !! event_value with
  | Some name => name
  | None =>
      if bool_decide (event_value > 0)
         && bool_decide (event_value < HIGH_LEVEL_EVENT_THRESHOLD)
      then match pressed_buttons event_value with
           | [] => String.append "Key event " (pretty event_value)
           | _ :: _ =>
               String.append "Key event: "
                             (String.concat " + " (pressed_buttons event_value))
           end
      else String.append "Unknown event " (pretty event_value)
  end.

(** ** [ScDaemonComm]

    The vendor library is outside the program: each method takes, as an
    argument, what the library call it makes returns, and reports the calls
    it made. *)
Inductive DllCall : Type :=
| scConnect2 (isAlwaysReceivingData : bool) (applName : option string)
| scGetDevNum
| scDisconnect
| scFetchStdData (devIdx : Z).

Module ScDaemonComm.

Record t : Type := mk {
  _is_connected : bool;
  _dev_count : Z;
  _used_dev_count : Z;
  _max_dev_idx : Z
}.

Definition init : t := mk false 0 0 0.

(** [sc_status] is what [scConnect2] returns; [get_dev_num] is what
    [scGetDevNum] returns and writes through its three pointers. The result
    is the object, the library calls made, and the returned boolean. *)
Definition connect (self : t) (sc_status : Z) (get_dev_num : Z * (Z * Z * Z))
    : t * list DllCall * bool :=
  if bool_decide (sc_status = 0)
  then
    let '(status_get_dev_num, (dev_num, used_dev_num, max_dev_idx)) := get_dev_num in
    if bool_decide (status_get_dev_num = 0)
    then (mk true dev_num used_dev_num max_dev_idx,
          [scConnect2 true None; scGetDevNum], true)
    else (mk false (_dev_count self) (_used_dev_count self) (_max_dev_idx self),
          [scConnect2 true None; scGetDevNum], false)
  else (mk false (_dev_count self) (_used_dev_count self) (_max_dev_idx self),
        [scConnect2 true None], false).

Definition disconnect (self : t) : t * list DllCall :=
  if _is_connected self
  then (mk false (_dev_count self) (_used_dev_count self) (_max_dev_idx self),
        [scDisconnect])
  else (self, []).

Definition get_device_count (self : t) : Z := _dev_count self.

(** [answer] is what [scFetchStdData] returns and writes through its eleven
    pointers. The result is the returned pair and the library calls made. *)
Definition fetch_data (self : t) (device_index : Z) (answer : Z * Sample)
    : (option Sample * Z) * list DllCall :=
  if negb (_is_connected self)
  then ((None, 1), [])
  else
    let '(sc_status, sc_data_result) := answer in
    if bool_decide (sc_status = 0)
    then ((Some sc_data_result, 0), [scFetchStdData device_index])
    else ((None, sc_status), [scFetchStdData device_index]).

End ScDaemonComm.

(** ** [SpaceControlDataAcquirer] *)

Inductive LogLevel : Type := ERROR | WARNING | INFO | DEBUG.

(** A call on [logger] in the acquisition loop: its level, which of the
    loop's four call sites made it, and the status it reports together with
    the text [decode_event] gives for it. *)
Inductive LogSite : Type :=
| FetchedData
| FetchedNone
| ReturnedErrorStatus
| NothingChanged.

Record LogRecord : Type := mkLog {
  log_level : LogLevel;
  log_site : LogSite;
  log_status : Z;
  log_status_text : string
}.

Module SpaceControlDataAcquirer.

(** One pass through the body of the [while self._running] loop. *)
Definition iteration (daemon_comm : ScDaemonComm.t) (device_index : Z)
    (shared_data : SharedSpaceControlData.t) (answer : Z * Sample)
    : SharedSpaceControlData.t * list DllCall * list LogRecord :=
  let '((data, status), calls) :=
    ScDaemonComm.fetch_data daemon_comm device_index answer in
  let first_log :=
    match data with
    | Some _ => mkLog DEBUG FetchedData status (decode_event status)
    | None => mkLog DEBUG FetchedNone status (decode_event status)
    end in
  match data with
  | Some d =>
      if bool_decide (status = 0)
      then (SharedSpaceControlData.set_data shared_data d, calls, [first_log])
      else if bool_decide (status <> 0) && bool_decide (status <> 1)
              && bool_decide (status <> -1)
      then (shared_data, calls,
            [first_log; mkLog ERROR ReturnedErrorStatus status (decode_event status)])
      else if bool_decide (status = 1) || bool_decide (status = -1)
      then (shared_data, calls,
            [first_log; mkLog DEBUG NothingChanged status (decode_event status)])
      else (shared_data, calls, [first_log])
  | None =>
      if bool_decide (status <> 0) && bool_decide (status <> 1)
         && bool_decide (status <> -1)
      then (shared_data, calls,
            [first_log; mkLog ERROR ReturnedErrorStatus status (decode_event status)])
      else if bool_decide (status = 1) || bool_decide (status = -1)
      then (shared_data, calls,
            [first_log; mkLog DEBUG NothingChanged status (decode_event status)])
      else (shared_data, calls, [first_log])
  end.

(** The loop while [_running] stays set, over the library's successive
    answers. *)
Fixpoint run (daemon_comm : ScDaemonComm.t) (device_index : Z)
    (shared_data : SharedSpaceControlData.t) (answers : list (Z * Sample))
    : SharedSpaceControlData.t * list DllCall * list LogRecord :=
  match answers with
  | [] => (shared_data, [], [])
  | answer :: answers =>
      let '(shared1, calls1, logs1) :=
        iteration daemon_comm device_index shared_data answer in
      let '(shared2, calls2, logs2) := run daemon_comm device_index shared1 answers in
      (shared2, calls1 ++ calls2, logs1 ++ logs2)
  end.

End SpaceControlDataAcquirer.

(** ** Device capabilities declared by [_setup_uinput] *)

Record AbsInfo : Type := mkAbsInfo {
  abs_value : Z; abs_min : Z; abs_max : Z;
  abs_fuzz : Z; abs_flat : Z; abs_resolution : Z
}.

Record Capabilities : Type := mkCapabilities {
  cap_EV_ABS : list (Z * AbsInfo);
  cap_EV_KEY : list Z
}.

Definition setup_capabilities (all_uinput_buttons : list Z) : Capabilities :=
  mkCapabilities
    [ (ABS_X, mkAbsInfo 0 (-32767) 32767 0 0 0);
      (ABS_Y, mkAbsInfo 0 (-32767) 32767 0 0 0);
      (ABS_Z, mkAbsInfo 0 (-32767) 32767 0 0 0);
      (ABS_RX, mkAbsInfo 0 (-32767) 32767 0 0 0);
      (ABS_RY, mkAbsInfo 0 (-32767) 32767 0 0 0);
      (ABS_RZ, mkAbsInfo 0 (-32767) 32767 0 0 0) ]
    all_uinput_buttons.

(** [list(set(low values + high values))]: the distinct codes, in no
    particular order. *)
Definition ALL_3DMOUSE_UINPUT_BUTTONS : list Z :=
  elements
    (list_to_set
       ((snd <$> map_to_list EVDEV_3DMOUSE_LOW_LEVEL_BUTTON_MAP)
        ++ (snd <$> map_to_list HIGH_LEVEL_EVENT_MAP_FOR_UINPUT)) : gset Z).

(** The raw reading of an axis in a sample. *)
Definition raw_axis (data : Sample) (k : AxisKey) : Z :=
  match k with
  | KX => ScData.x data | KY => ScData.y data | KZ => ScData.z data
  | KA => ScData.a data | KB => ScData.b data | KC => ScData.c data
  end.

(** The six axis fields hold what a [c_short] can. *)
Definition c_short_axes (data : Sample) : Prop :=
  forall k, -32768 <= raw_axis data k <= 32767.

(** ** The dispatch loop of the main block *)

Module Main.

Definition ENABLE_3DMOUSE_VIRTUAL_DEVICE : bool := true.
Definition ENABLE_GAMEPAD_VIRTUAL_DEVICE : bool := false.

Record Controllers : Type := mkControllers {
  mouse_controller : option Virtual3DMouseController.t;
  gamepad_controller : option VirtualGamepadController.t
}.

(** The controllers the main block creates under the two enablement flags;
    the arguments are what device creation leaves in each controller. *)
Definition make_controllers (enable_mouse enable_gamepad : bool)
    (mouse_dev gamepad_dev : option UInput) : Controllers :=
  mkControllers
    (if enable_mouse then Some (Virtual3DMouseController.init mouse_dev) else None)
    (if enable_gamepad then Some (VirtualGamepadController.init gamepad_dev) else None).

(** The body of the loop after [get_data]: the controllers, the calls on the
    mouse device, the calls on the gamepad device, and whether the body
    completed. *)
Definition dispatch (cs : Controllers) (new_data : option Sample)
    : Controllers * list HidCall * list HidCall * Outcome :=
  match new_data with
  | None => (cs, [], [], Returned)
  | Some data =>
      let '(mouse', mouse_calls) :=
        match mouse_controller cs with
        | Some m =>
            let '(m', calls) := Virtual3DMouseController.update m data in
            (Some m', calls)
        | None => (None, [])
        end in
      match gamepad_controller cs with
      | Some g =>
          let '(g', gamepad_calls, outcome) :=
            VirtualGamepadController.update g data in
          (mkControllers mouse' (Some g'), mouse_calls, gamepad_calls, outcome)
      | None => (mkControllers mouse' None, mouse_calls, [], Returned)
      end
  end.

(** One turn of the [while True] loop. *)
Definition loop_iteration (shared : SharedSpaceControlData.t) (cs : Controllers)
    : SharedSpaceControlData.t * (Controllers * list HidCall * list HidCall * Outcome) :=
  let '(shared', new_data) := SharedSpaceControlData.get_data shared in
  (shared', dispatch cs new_data).

End Main.

(** ** Reading a whole run *)

(** The low-level buttons a sequence of device calls leaves down, starting
    from [down]; [None] when it presses a button that is down or releases one
    that is not. *)
Fixpoint low_level_down (down : gset string) (calls : list HidCall)
    : option (gset string) :=
  match calls with
  | [] => Some down
  | Write _ _ value (FromLowLevel n) :: rest =>
      if bool_decide (value = 1)
      then if bool_decide (n ∈ down) then None
           else low_level_down ({[ n ]} ∪ down) rest
      else if bool_decide (n ∈ down) then low_level_down (down ∖ {[ n ]}) rest
           else None
  | _ :: rest => low_level_down down rest
  end.

(** The same for the high-level block, where at most one event is active:
    [None] when it presses while one is active or releases another event
    than the active one. *)
Fixpoint high_level_down (down : option Z) (calls : list HidCall)
    : option (option Z) :=
  match calls with
  | [] => Some down
  | Write _ _ value (FromHighLevel e) :: rest =>
      if bool_decide (value = 1)
      then match down with
           | None => high_level_down (Some e) rest
           | Some _ => None
           end
      else if bool_decide (down = Some e) then high_level_down None rest
           else None
  | _ :: rest => high_level_down down rest
  end.

(** The stored high-level event when it has a button in the 3D-mouse table. *)
Definition active_high_level_button (h : option Z) : option Z :=
  match h with
  | Some e =>
      if bool_decide (is_Some (HIGH_LEVEL_EVENT_MAP_FOR_UINPUT !! e))
      then Some e else None
  | None => None
  end.

(** The last sample a schedule has published, [start] if none. *)
Definition last_published (start : option Sample)
    (ops : list SharedSpaceControlData.Op) : option Sample :=
  foldl (fun acc op =>
           match op with
           | SharedSpaceControlData.Publish d => Some d
           | SharedSpaceControlData.Take => acc
           end) start ops.

(** Whether the flag is set after a schedule, [start] being its value
    before. *)
Definition flag_after (start : bool) (ops : list SharedSpaceControlData.Op) : bool :=
  foldl (fun acc op =>
           match op with
           | SharedSpaceControlData.Publish _ => true
           | SharedSpaceControlData.Take => false
           end) start ops.

(** The last sample among the library's answers that came with status 0. *)
Definition last_ok_answer (start : option Sample) (answers : list (Z * Sample))
    : option Sample :=
  foldl (fun acc answer =>
           if bool_decide (fst answer = 0) then Some (snd answer) else acc)
        start answers.

(** A record written with [logger.error]. *)
Definition is_error_log (r : LogRecord) : bool :=
  match log_level r with
  | ERROR => true
  | _ => false
  end.

(** A status that is neither 0 nor one of the two values the loop treats as
    "nothing changed". *)
Definition is_error_status (status : Z) : bool :=
  bool_decide (status <> 0) && bool_decide (status <> 1)
  && bool_decide (status <> -1).

(** The test the bit loops apply to an entry of [BUTTON_BIT_MAP]. *)
Definition bit_set (e : Z) (item : Z * string) : bool :=
  bool_decide (Z.land (Z.shiftr e (fst item)) 1 <> 0).

(** ** The mailbox with the wait outside the lock

    [get_data] waits before it takes the lock, so the producer's [set_data]
    calls can run between the moment the wait returns and the locked copy.
    With one producer and one consumer, a schedule is a sequence of
    [set_data] calls and of [get_data] calls, each [get_data] carrying the
    samples published in that window. *)
Inductive MailboxEvent : Type :=
| SetData (data : Sample)
| GetData (during : list Sample).

(** What each [get_data] of a schedule returns, with what its [wait]
    returned: the flag at the moment the wait ends, before the samples of the
    window are published. *)
Fixpoint run_interleaved (self : SharedSpaceControlData.t)
    (events : list MailboxEvent)
    : SharedSpaceControlData.t * list (bool * option Sample) :=
  match events with
  | [] => (self, [])
  | SetData d :: events =>
      run_interleaved (SharedSpaceControlData.set_data self d) events
  | GetData during :: events =>
      let signalled := SharedSpaceControlData.wait self in
      let '(self', r) :=
        SharedSpaceControlData.get_data
          (foldl SharedSpaceControlData.set_data self during) in
      let '(final, rs) := run_interleaved self' events in
      (final, (signalled, r) :: rs)
  end.

(** The locked steps of a schedule, in the order they take the lock. *)
Definition locked_steps (events : list MailboxEvent)
    : list SharedSpaceControlData.Op :=
  flat_map (fun ev =>
              match ev with
              | SetData d => [SharedSpaceControlData.Publish d]
              | GetData during =>
                  map SharedSpaceControlData.Publish during
                  ++ [SharedSpaceControlData.Take]
              end) events.

(** * Properties *)

(** ** The mailbox *)

Section Mailbox.
Import SharedSpaceControlData.

Lemma publish_all_last (self : t) (earlier : list Sample) (d : Sample) :
  foldl set_data self (earlier ++ [d]) = mk (Some d) true.
Proof. by rewrite foldl_app. Qed.

(** C2. [set_data] is defined on every mailbox state (it never waits for a
    reader), overwrites whatever sample is in the slot and sets the flag; after
    any non-empty burst of [set_data] calls the next [get_data] finds the flag
    set and returns exactly the last sample of the burst; in particular after
    S1, S2, S3 it returns S3, also when an earlier [get_data] precedes the
    burst. *)
Theorem mailbox_latest_wins :
  (forall (self : t) (d : Sample), set_data self d = mk (Some d) true) /\
  (forall (self : t) (earlier : list Sample) (d : Sample),
      let published := foldl set_data self (earlier ++ [d]) in
      wait published = true /\
      get_data published = (mk (Some d) false, Some d)) /\
  (forall (self : t) (S1 S2 S3 : Sample),
      snd (run self [Publish S1; Publish S2; Publish S3; Take])
      = [(true, Some S3)]) /\
  (forall (self : t) (S1 S2 S3 : Sample),
      exists first,
        snd (run self [Take; Publish S1; Publish S2; Publish S3; Take])
        = [first; (true, Some S3)]).
Proof.
  split; [done|]. split; [|split].
  - intros self earlier d published. subst published.
    by rewrite publish_all_last.
  - done.
  - intros self S1 S2 S3. by eexists.
Qed.

(** C3, the code at the failing schedule: one sample is published and taken;
    a second [get_data] follows with no [set_data] in between, so its [wait]
    times out (returns [False]); yet it returns the sample the first call
    already returned, not "no data". The slot is only empty before the first
    [set_data]. *)
Theorem get_data_returns_stale_sample (S1 : Sample) :
  run init [Publish S1; Take; Take]
  = (mk (Some S1) false, [(true, Some S1); (false, Some S1)])
  /\ run init [Take] = (init, [(false, None)]).
Proof. done. Qed.

End Mailbox.

(** ** The axis pass *)

Section Axis.
Import BaseVirtualController.

Lemma axis_loop_spec (last : AxisValues) (items : list (AxisKey * Z))
    (acc : list HidCall * bool) :
  foldl (axis_step last) acc items
  = (fst acc ++ flat_map (axis_call last) items,
     snd acc || existsb (fun item => bool_decide (snd item <> axis_get last (fst item))) items).
Proof.
  revert acc. induction items as [|[k v] items IH]; intros [calls mc]; simpl.
  - rewrite app_nil_r, orb_false_r. reflexivity.
  - rewrite IH. unfold axis_step, axis_call. simpl.
    destruct (bool_decide (v <> axis_get last k)); simpl.
    + rewrite <- app_assoc, orb_true_r. reflexivity.
    + reflexivity.
Qed.

Lemma axis_set_all (last : AxisValues) (data : Sample) :
  foldl axis_set last (current_axis_values data) = scaled data.
Proof. done. Qed.

Lemma base_update_device (dev : UInput) (last : AxisValues) (data : Sample) :
  update (mk (Some dev) last) data
  = (mk (Some dev) (scaled data),
     flat_map (axis_call last) (current_axis_values data),
     (axis_delta_nonzero last data, current_axis_values data)).
Proof.
  unfold update. cbn [uinput_device last_axis_values].
  rewrite axis_loop_spec, axis_set_all. reflexivity.
Qed.

Lemma base_update_no_device (last : AxisValues) (data : Sample) :
  update (mk None last) data = (mk None last, [], (false, [])).
Proof. done. Qed.

End Axis.

(** ** Lists of device calls *)

Section Calls.
Context {A : Type}.

Lemma flat_map_ext_elem (f g : A -> list HidCall) (l : list A) :
  (forall x, x ∈ l -> f x = g x) -> flat_map f l = flat_map g l.
Proof.
  induction l as [|x l IH]; intros H; simpl; [reflexivity|].
  rewrite (H x) by apply list_elem_of_here.
  rewrite IH; [reflexivity|].
  intros y Hy. apply H. by apply list_elem_of_further.
Qed.

Lemma filter_flat_map_nil (p : HidCall -> bool) (f : A -> list HidCall) (l : list A) :
  (forall x, x ∈ l -> List.filter p (f x) = []) ->
  List.filter p (flat_map f l) = [].
Proof.
  induction l as [|x l IH]; intros H; simpl; [reflexivity|].
  rewrite List.filter_app, (H x) by apply list_elem_of_here.
  rewrite IH; [reflexivity|].
  intros y Hy. apply H. by apply list_elem_of_further.
Qed.

Lemma flat_map_nil (f : A -> list HidCall) (l : list A) :
  (forall x, x ∈ l -> f x = []) -> flat_map f l = [].
Proof.
  induction l as [|x l IH]; intros H; simpl; [reflexivity|].
  rewrite (H x) by apply list_elem_of_here.
  rewrite IH; [reflexivity|].
  intros y Hy. apply H. by apply list_elem_of_further.
Qed.

End Calls.

Lemma edge_calls_same (code : Z) (o : Origin) (b : bool) :
  edge_calls code o b b = [].
Proof. by destruct b. Qed.

Lemma filter_axis_calls (p : HidCall -> bool) (last : AxisValues)
    (items : list (AxisKey * Z)) :
  (forall code value k, p (Write EV_ABS code value (FromAxis k)) = false) ->
  List.filter p (flat_map (axis_call last) items) = [].
Proof.
  intros Hp. apply filter_flat_map_nil. intros [k v] _.
  unfold axis_call. destruct (bool_decide _); simpl; [|reflexivity].
  by rewrite Hp.
Qed.

(** ** Facts about the tables *)

Lemma BUTTON_BIT_MAP_values_NoDup : NoDup BUTTON_BIT_MAP_values.
Proof. apply (bool_decide_unpack _). vm_compute. exact I. Qed.

(** Every name of the bit table has a code in the 3D-mouse table, namely
    [BTN_MISC] plus its bit position, and no bit position is 15 or 16. *)
Lemma BUTTON_BIT_MAP_codes :
  Forall (fun item =>
            EVDEV_3DMOUSE_LOW_LEVEL_BUTTON_MAP !! snd item = Some (BTN_MISC + fst item)
            /\ fst item <> 15 /\ fst item <> 16 /\ 0 <= fst item < 32)
         BUTTON_BIT_MAP.
Proof. apply (bool_decide_unpack _). vm_compute. exact I. Qed.

Lemma BUTTON_BIT_MAP_values_elem (name : string) :
  name ∈ BUTTON_BIT_MAP_values ->
  exists bit, (bit, name) ∈ BUTTON_BIT_MAP
              /\ EVDEV_3DMOUSE_LOW_LEVEL_BUTTON_MAP !! name = Some (BTN_MISC + bit)
              /\ bit <> 15 /\ bit <> 16.
Proof.
  unfold BUTTON_BIT_MAP_values. intros Hin.
  apply list_elem_of_fmap in Hin as ([bit n] & -> & Hin).
  pose proof BUTTON_BIT_MAP_codes as HF.
  rewrite Forall_forall in HF. specialize (HF _ Hin). simpl in HF.
  destruct HF as (Hcode & H15 & H16 & _).
  exists bit. simpl. auto.
Qed.



(** ** The low-level loop of the 3D mouse *)

Section LowLevelLoop.
Import Virtual3DMouseController.

Lemma low_level_step_acc (names : gset string) (m : gmap string bool)
    (tr : list HidCall) (n : string) :
  low_level_step names (m, tr) n
  = (fst (low_level_step names (m, []) n), tr ++ low_level_edge names m n).
Proof.
  unfold low_level_edge, low_level_step. cbn [fst snd].
  destruct (EVDEV_3DMOUSE_LOW_LEVEL_BUTTON_MAP !! n); cbn [fst snd app].
  - reflexivity.
  - rewrite app_nil_r. reflexivity.
Qed.

Lemma low_level_step_lookup_ne (names : gset string) (m : gmap string bool)
    (n n' : string) :
  n <> n' -> fst (low_level_step names (m, []) n) !! n' = m !! n'.
Proof.
  intros Hne. unfold low_level_step. cbn [fst snd].
  destruct (EVDEV_3DMOUSE_LOW_LEVEL_BUTTON_MAP !! n); cbn [fst snd]; [|reflexivity].
  by apply lookup_insert_ne.
Qed.

Lemma low_level_step_lookup_eq (names : gset string) (m : gmap string bool)
    (n : string) :
  is_Some (EVDEV_3DMOUSE_LOW_LEVEL_BUTTON_MAP !! n) ->
  fst (low_level_step names (m, []) n) !! n = Some (bool_decide (n ∈ names)).
Proof.
  intros [code Hc]. unfold low_level_step. cbn [fst snd]. rewrite Hc.
  cbn [fst snd]. apply lookup_insert_eq.
Qed.

Lemma low_level_edge_agree (names : gset string) (m m' : gmap string bool)
    (n : string) :
  default false (m !! n) = default false (m' !! n) ->
  low_level_edge names m n = low_level_edge names m' n.
Proof.
  intros H. unfold low_level_edge, low_level_step. cbn [fst snd].
  destruct (EVDEV_3DMOUSE_LOW_LEVEL_BUTTON_MAP !! n); cbn [fst snd]; [|reflexivity].
  rewrite H. reflexivity.
Qed.

Lemma low_level_state_lookup_notin (names : gset string) (l : list string)
    (m : gmap string bool) (n : string) :
  n ∉ l -> low_level_state names m l !! n = m !! n.
Proof.
  revert m. induction l as [|n0 l IH]; intros m Hn; [reflexivity|].
  apply not_elem_of_cons in Hn as [Hne Hn].
  change (low_level_state names m (n0 :: l))
    with (low_level_state names (fst (low_level_step names (m, []) n0)) l).
  rewrite IH by exact Hn.
  apply low_level_step_lookup_ne. congruence.
Qed.

Lemma low_level_state_lookup_in (names : gset string) (l : list string)
    (m : gmap string bool) (n : string) :
  NoDup l -> n ∈ l ->
  is_Some (EVDEV_3DMOUSE_LOW_LEVEL_BUTTON_MAP !! n) ->
  low_level_state names m l !! n = Some (bool_decide (n ∈ names)).
Proof.
  revert m. induction l as [|n0 l IH]; intros m Hnd Hin Hc.
  - by apply elem_of_nil in Hin.
  - apply NoDup_cons in Hnd as [Hn0 Hnd].
    destruct (decide (n = n0)) as [->|Hne].
    + change (low_level_state names m (n0 :: l))
        with (low_level_state names (fst (low_level_step names (m, []) n0)) l).
      rewrite low_level_state_lookup_notin by exact Hn0.
      by apply low_level_step_lookup_eq.
    + apply elem_of_cons in Hin as [Heq|Hin]; [done|].
      change (low_level_state names m (n0 :: l))
        with (low_level_state names (fst (low_level_step names (m, []) n0)) l).
      by apply IH.
Qed.

Lemma low_level_state_dom (names : gset string) (l : list string)
    (m : gmap string bool) (n : string) :
  is_Some (low_level_state names m l !! n) -> is_Some (m !! n) \/ n ∈ l.
Proof.
  intros H. destruct (decide (n ∈ l)) as [Hin|Hnotin]; [by right|].
  left. by rewrite low_level_state_lookup_notin in H.
Qed.

Lemma low_level_loop_spec (names : gset string) (l : list string) :
  NoDup l ->
  forall (m : gmap string bool) (tr : list HidCall),
    foldl (low_level_step names) (m, tr) l
    = (low_level_state names m l, tr ++ flat_map (low_level_edge names m) l).
Proof.
  induction l as [|n l IH]; intros Hnd m tr.
  - cbn [foldl flat_map]. rewrite app_nil_r. reflexivity.
  - apply NoDup_cons in Hnd as [Hn Hnd].
    cbn [foldl]. rewrite low_level_step_acc, (IH Hnd).
    cbn [flat_map]. rewrite <- app_assoc.
    f_equal. f_equal. f_equal.
    apply flat_map_ext_elem. intros n' Hn'.
    apply low_level_edge_agree. f_equal.
    apply low_level_step_lookup_ne. intros ->. contradiction.
Qed.

(** [update] with a device, written out block by block. *)
Lemma mouse_update_device (dev : UInput) (last : AxisValues)
    (low : gmap string bool) (last_high : option Z) (data : Sample) :
  update (mk (BaseVirtualController.mk (Some dev) last) low last_high) data
  = let moving := is_any_axis_moving (BaseVirtualController.current_axis_values data) in
    let high := current_high_level_event (ScData.event data) moving in
    let names := current_low_level_button_names (ScData.event data) high moving in
    (mk (BaseVirtualController.mk (Some dev) (scaled data))
        (low_level_state names low BUTTON_BIT_MAP_values) high,
     flat_map (axis_call last) (BaseVirtualController.current_axis_values data)
     ++ (high_level_release last_high high ++ high_level_press last_high high)
     ++ flat_map (low_level_edge names low) BUTTON_BIT_MAP_values ++ [Syn]).
Proof.
  unfold update. cbn [base last_low_level_button_state last_high_level_event_state].
  rewrite base_update_device.
  cbn [BaseVirtualController.uinput_device].
  rewrite (low_level_loop_spec _ _ BUTTON_BIT_MAP_values_NoDup).
  reflexivity.
Qed.

Lemma mouse_update_no_device (last : AxisValues) (low : gmap string bool)
    (last_high : option Z) (data : Sample) :
  update (mk (BaseVirtualController.mk None last) low last_high) data
  = (mk (BaseVirtualController.mk None last) low last_high, []).
Proof. reflexivity. Qed.

Lemma low_level_edge_not_pressed (p : HidCall -> bool) (m : gmap string bool)
    (n : string) :
  (forall code, p (Write EV_KEY code 0 (FromLowLevel n)) = false) ->
  List.filter p (low_level_edge ∅ m n) = [].
Proof.
  intros Hp. unfold low_level_edge, low_level_step. cbn [fst snd].
  destruct (EVDEV_3DMOUSE_LOW_LEVEL_BUTTON_MAP !! n) as [code|];
    cbn [fst snd app]; [|reflexivity].
  rewrite bool_decide_eq_false_2 by apply not_elem_of_empty.
  destruct (default false (m !! n)); cbn [edge_calls andb negb List.filter];
    [|reflexivity].
  rewrite Hp. reflexivity.
Qed.

Lemma filter_low_level_edges (p : HidCall -> bool) (names : gset string)
    (m : gmap string bool) (l : list string) :
  (forall code value n, p (Write EV_KEY code value (FromLowLevel n)) = false) ->
  List.filter p (flat_map (low_level_edge names m) l) = [].
Proof.
  intros Hp. apply filter_flat_map_nil. intros n _.
  unfold low_level_edge, low_level_step, edge_calls. cbn [fst snd].
  destruct (EVDEV_3DMOUSE_LOW_LEVEL_BUTTON_MAP !! n) as [code|];
    cbn [fst snd app]; [|reflexivity].
  destruct (bool_decide (n ∈ names)), (default false (m !! n));
    cbn [andb negb List.filter]; rewrite ?Hp; reflexivity.
Qed.

End LowLevelLoop.

(** ** The gamepad update *)

Lemma gamepad_update_device (dev : UInput) (last : AxisValues)
    (buttons : gmap string bool) (last_high : option Z) (data : Sample) :
  VirtualGamepadController.update
    (VirtualGamepadController.mk (BaseVirtualController.mk (Some dev) last)
                                 buttons last_high) data
  = let moving := is_any_axis_moving (BaseVirtualController.current_axis_values data) in
    let high := current_high_level_event (ScData.event data) moving in
    (VirtualGamepadController.mk (BaseVirtualController.mk (Some dev) (scaled data))
                                 buttons high,
     flat_map (axis_call last) (BaseVirtualController.current_axis_values data)
     ++ (VirtualGamepadController.high_level_release last_high high
         ++ VirtualGamepadController.high_level_press last_high high),
     Raised (NameError "GAMEPAD_BIT_TO_EVDEV_CODE")).
Proof.
  unfold VirtualGamepadController.update.
  cbn [VirtualGamepadController.base VirtualGamepadController.last_button_state
       VirtualGamepadController.last_high_level_event_state].
  rewrite base_update_device.
  reflexivity.
Qed.

Lemma gamepad_update_no_device (last : AxisValues) (buttons : gmap string bool)
    (last_high : option Z) (data : Sample) :
  VirtualGamepadController.update
    (VirtualGamepadController.mk (BaseVirtualController.mk None last)
                                 buttons last_high) data
  = (VirtualGamepadController.mk (BaseVirtualController.mk None last)
                                 buttons last_high, [], Returned).
Proof. reflexivity. Qed.

(** ** The classifier and the high-level blocks *)

Lemma filter_nil_not_elem (p : HidCall -> bool) (l : list HidCall) (c : HidCall) :
  List.filter p l = [] -> p c = true -> c ∉ l.
Proof.
  intros Hf Hp Hin. apply list_elem_of_In in Hin.
  assert (Hc : In c (List.filter p l)) by (apply List.filter_In; auto).
  rewrite Hf in Hc. destruct Hc.
Qed.

Lemma current_high_level_event_moving (e : Z) :
  current_high_level_event e true = None.
Proof. unfold current_high_level_event. rewrite andb_false_r. reflexivity. Qed.

Lemma current_high_level_event_still (e : Z) :
  e >= HIGH_LEVEL_EVENT_THRESHOLD -> current_high_level_event e false = Some e.
Proof.
  intros H. unfold current_high_level_event.
  rewrite bool_decide_eq_true_2 by exact H. reflexivity.
Qed.

Lemma current_high_level_event_low (e : Z) (moving : bool) :
  e < HIGH_LEVEL_EVENT_THRESHOLD -> current_high_level_event e moving = None.
Proof.
  intros H. unfold current_high_level_event.
  rewrite bool_decide_eq_false_2 by lia. reflexivity.
Qed.

Lemma mouse_names_moving (e : Z) (high : option Z) :
  Virtual3DMouseController.current_low_level_button_names e high true = ∅.
Proof.
  unfold Virtual3DMouseController.current_low_level_button_names.
  rewrite andb_false_r. reflexivity.
Qed.

Lemma mouse_names_high (e h : Z) (moving : bool) :
  Virtual3DMouseController.current_low_level_button_names e (Some h) moving = ∅.
Proof.
  unfold Virtual3DMouseController.current_low_level_button_names.
  rewrite (bool_decide_eq_false_2 (Some h = None)) by discriminate.
  rewrite andb_false_r. reflexivity.
Qed.

Section HighLevelBlocks.

Lemma filter_mouse_release (p : HidCall -> bool) (last current : option Z) :
  (forall code e, p (Write EV_KEY code 0 (FromHighLevel e)) = false) ->
  List.filter p (Virtual3DMouseController.high_level_release last current) = [].
Proof.
  intros Hp. unfold Virtual3DMouseController.high_level_release.
  destruct last as [prev|]; [|reflexivity].
  destruct (_ && _); [|reflexivity].
  destruct (HIGH_LEVEL_EVENT_MAP_FOR_UINPUT !! prev); [|reflexivity].
  cbn [List.filter]. rewrite Hp. reflexivity.
Qed.

Lemma filter_gamepad_release (p : HidCall -> bool) (last current : option Z) :
  (forall code e, p (Write EV_KEY code 0 (FromHighLevel e)) = false) ->
  List.filter p (VirtualGamepadController.high_level_release last current) = [].
Proof.
  intros Hp. unfold VirtualGamepadController.high_level_release.
  destruct last as [prev|]; [|reflexivity].
  destruct (bool_decide _); [|reflexivity].
  destruct (VirtualGamepadController.high_level_button prev); [|reflexivity].
  cbn [List.filter]. rewrite Hp. reflexivity.
Qed.

Lemma filter_mouse_press (p : HidCall -> bool) (last current : option Z) :
  (forall code e, p (Write EV_KEY code 1 (FromHighLevel e)) = false) ->
  List.filter p (Virtual3DMouseController.high_level_press last current) = [].
Proof.
  intros Hp. unfold Virtual3DMouseController.high_level_press.
  destruct current as [cur|]; [|reflexivity].
  destruct (_ && _); [|reflexivity].
  destruct (HIGH_LEVEL_EVENT_MAP_FOR_UINPUT !! cur); [|reflexivity].
  cbn [List.filter]. rewrite Hp. reflexivity.
Qed.

Lemma filter_gamepad_press (p : HidCall -> bool) (last current : option Z) :
  (forall code e, p (Write EV_KEY code 1 (FromHighLevel e)) = false) ->
  List.filter p (VirtualGamepadController.high_level_press last current) = [].
Proof.
  intros Hp. unfold VirtualGamepadController.high_level_press.
  destruct current as [cur|]; [|reflexivity].
  destruct (bool_decide _); [|reflexivity].
  destruct (VirtualGamepadController.high_level_button cur); [|reflexivity].
  cbn [List.filter]. rewrite Hp. reflexivity.
Qed.

Lemma mouse_release_same (h : option Z) :
  Virtual3DMouseController.high_level_release h h = [].
Proof.
  unfold Virtual3DMouseController.high_level_release.
  destruct h as [prev|]; [|reflexivity].
  rewrite (bool_decide_eq_false_2 (Some prev <> Some prev)) by auto.
  reflexivity.
Qed.

Lemma mouse_press_same (h : option Z) :
  Virtual3DMouseController.high_level_press h h = [].
Proof.
  unfold Virtual3DMouseController.high_level_press.
  destruct h as [cur|]; [|reflexivity].
  rewrite (bool_decide_eq_false_2 (Some cur <> Some cur)) by auto.
  reflexivity.
Qed.

Lemma gamepad_release_same (h : option Z) :
  VirtualGamepadController.high_level_release h h = [].
Proof.
  unfold VirtualGamepadController.high_level_release.
  destruct h as [prev|]; [|reflexivity].
  rewrite (bool_decide_eq_false_2 (Some prev <> Some prev)) by auto.
  reflexivity.
Qed.

Lemma gamepad_press_same (h : option Z) :
  VirtualGamepadController.high_level_press h h = [].
Proof.
  unfold VirtualGamepadController.high_level_press.
  destruct h as [cur|]; [|reflexivity].
  rewrite (bool_decide_eq_false_2 (Some cur <> Some cur)) by auto.
  reflexivity.
Qed.

Lemma mouse_release_mapped (A code : Z) (current : option Z) :
  current <> Some A ->
  HIGH_LEVEL_EVENT_MAP_FOR_UINPUT !! A = Some code ->
  Virtual3DMouseController.high_level_release (Some A) current
  = [Write EV_KEY code 0 (FromHighLevel A)].
Proof.
  intros Hne HA. unfold Virtual3DMouseController.high_level_release.
  rewrite HA.
  rewrite (bool_decide_eq_true_2 (Some A <> current)) by congruence.
  rewrite (bool_decide_eq_true_2 (is_Some (Some code))) by eauto.
  reflexivity.
Qed.


Lemma mouse_press_unmapped (U : Z) (last : option Z) :
  HIGH_LEVEL_EVENT_MAP_FOR_UINPUT !! U = None ->
  Virtual3DMouseController.high_level_press last (Some U) = [].
Proof.
  intros HU. unfold Virtual3DMouseController.high_level_press.
  rewrite HU. destruct (_ && _); reflexivity.
Qed.



End HighLevelBlocks.

(** ** The gamepad's missing table *)

(** C4. With a device, every [VirtualGamepadController.update] runs the axis
    pass and the high-level block and then reads the global name
    [GAMEPAD_BIT_TO_EVDEV_CODE], which no module-level statement binds: the
    call raises [NameError], having written only axis and high-level events;
    no low-level edge is written, [last_button_state] is left as it was, and
    [syn] is not called. *)
Theorem gamepad_update_raises_NameError
    (self : VirtualGamepadController.t) (data : Sample) (dev : UInput) :
  BaseVirtualController.uinput_device (VirtualGamepadController.base self) = Some dev ->
  load_global "GAMEPAD_BIT_TO_EVDEV_CODE" = None /\
  ("GAMEPAD_BIT_TO_EVDEV_CODE" ∉ map fst module_globals) /\
  exists self' calls,
    VirtualGamepadController.update self data
    = (self', calls, Raised (NameError "GAMEPAD_BIT_TO_EVDEV_CODE")) /\
    VirtualGamepadController.last_button_state self'
    = VirtualGamepadController.last_button_state self /\
    List.filter is_low_level_write calls = [] /\
    Syn ∉ calls.
Proof.
  intros Hdev. destruct self as [[d last] buttons last_high].
  cbn in Hdev. subst d.
  split; [reflexivity|]. split.
  { apply (bool_decide_unpack _). vm_compute. exact I. }
  rewrite gamepad_update_device. cbv zeta.
  eexists _, _. split; [reflexivity|]. split; [reflexivity|].
  assert (Hp : forall p : HidCall -> bool,
             (forall code value k, p (Write EV_ABS code value (FromAxis k)) = false) ->
             (forall code value e, p (Write EV_KEY code value (FromHighLevel e)) = false) ->
             List.filter p
               (flat_map (axis_call last) (BaseVirtualController.current_axis_values data)
                ++ VirtualGamepadController.high_level_release last_high
                     (current_high_level_event (ScData.event data)
                        (is_any_axis_moving (BaseVirtualController.current_axis_values data)))
                ++ VirtualGamepadController.high_level_press last_high
                     (current_high_level_event (ScData.event data)
                        (is_any_axis_moving (BaseVirtualController.current_axis_values data))))
             = []).
  { intros p Hax Hhigh.
    rewrite !List.filter_app, filter_axis_calls, filter_gamepad_release,
      filter_gamepad_press by auto.
    reflexivity. }
  split.
  - apply Hp; reflexivity.
  - apply (filter_nil_not_elem (fun c => bool_decide (c = Syn))).
    + apply Hp; reflexivity.
    + reflexivity.
Qed.

Lemma gamepad_update_raises_NameError_witness :
  exists self' calls,
    VirtualGamepadController.update (VirtualGamepadController.init some_device)
                                    (sample 100 0 0 0 0 0 3)
    = (self', calls, Raised (NameError "GAMEPAD_BIT_TO_EVDEV_CODE")) /\
    VirtualGamepadController.last_button_state self'
    = VirtualGamepadController.last_button_state
        (VirtualGamepadController.init some_device) /\
    List.filter is_low_level_write calls = [] /\
    Syn ∉ calls.
Proof.
  exact (proj2 (proj2 (gamepad_update_raises_NameError
                         (VirtualGamepadController.init some_device)
                         (sample 100 0 0 0 0 0 3) UInputDevice eq_refl))).
Defined.

(** ** Motion and buttons *)

(** C1, as the code has it. When some scaled axis value of the sample is
    non-zero ([is_any_axis_moving]), neither dispatcher writes a button press
    in that cycle, low-level or high-level, whatever the event field holds.
    (Releases of buttons that were down are still written, and a cycle whose
    scaled values are all zero is not a motion cycle even when they differ
    from the stored ones.) *)
Theorem motion_suppresses_presses
    (m : Virtual3DMouseController.t) (g : VirtualGamepadController.t)
    (data : Sample) :
  is_any_axis_moving (BaseVirtualController.current_axis_values data) = true ->
  List.filter is_press (snd (Virtual3DMouseController.update m data)) = [] /\
  List.filter is_press (snd (fst (VirtualGamepadController.update g data))) = [].
Proof.
  intros Hmov. split.
  - destruct m as [[[dev|] last] low last_high]; [|reflexivity].
    rewrite mouse_update_device. cbv zeta. cbn [snd].
    rewrite Hmov, current_high_level_event_moving, mouse_names_moving.
    rewrite !List.filter_app.
    rewrite filter_axis_calls by reflexivity.
    rewrite filter_mouse_release by reflexivity.
    rewrite (filter_flat_map_nil is_press (low_level_edge ∅ low))
      by (intros n _; apply low_level_edge_not_pressed; reflexivity).
    reflexivity.
  - destruct g as [[[dev|] last] buttons last_high]; [|reflexivity].
    rewrite gamepad_update_device. cbv zeta. cbn [fst snd].
    rewrite Hmov, current_high_level_event_moving.
    rewrite !List.filter_app.
    rewrite filter_axis_calls by reflexivity.
    rewrite filter_gamepad_release by reflexivity.
    reflexivity.
Qed.

Lemma motion_suppresses_presses_witness :
  List.filter is_press
    (snd (Virtual3DMouseController.update
            (Virtual3DMouseController.init some_device)
            (sample 100 0 0 0 0 0 0x2000D))) = [] /\
  List.filter is_press
    (snd (fst (VirtualGamepadController.update
                 (VirtualGamepadController.init some_device)
                 (sample 100 0 0 0 0 0 0x2000D)))) = [].
Proof.
  apply (motion_suppresses_presses
           (Virtual3DMouseController.init some_device)
           (VirtualGamepadController.init some_device)
           (sample 100 0 0 0 0 0 0x2000D)).
  reflexivity.
Defined.

(** C1 as stated fails twice on the 3D mouse. With button 1 held (event 1, no
    axis deflected), the cycle that deflects X to raw 100 has a non-zero axis
    delta and writes the release of that button; the next cycle, with X back
    at 0 and event 1 again, also has a non-zero delta (2000 to 0) and writes
    a press. *)
Lemma motion_priority_counterexample :
  let held :=
    fst (Virtual3DMouseController.run (Virtual3DMouseController.init some_device)
                                      [sample 0 0 0 0 0 0 1]) in
  let deflected := sample 100 0 0 0 0 0 1 in
  let moved := fst (Virtual3DMouseController.update held deflected) in
  let centred := sample 0 0 0 0 0 0 1 in
  (axis_delta_nonzero
     (BaseVirtualController.last_axis_values (Virtual3DMouseController.base held))
     deflected = true /\
   key_writes (snd (Virtual3DMouseController.update held deflected))
   = [Write EV_KEY (BTN_MISC + 0) 0 (FromLowLevel "SC_KEY_1")]) /\
  (axis_delta_nonzero
     (BaseVirtualController.last_axis_values (Virtual3DMouseController.base moved))
     centred = true /\
   key_writes (snd (Virtual3DMouseController.update moved centred))
   = [Write EV_KEY (BTN_MISC + 0) 1 (FromLowLevel "SC_KEY_1")]).
Proof. vm_compute. repeat split. Qed.

(** ** High-level transitions *)







(** C7. In any cycle of the 3D mouse whose event value is at or above
    [HIGH_LEVEL_EVENT_THRESHOLD] but has no entry in
    [HIGH_LEVEL_EVENT_MAP_FOR_UINPUT] (whether the axes are at rest, held
    deflected or changing, so in particular in every no-motion cycle): no
    press at all is written; if a mapped high-level code was active, the
    release of its button is written and is the cycle's only high-level
    write; and the stored high-level state becomes the unmapped value (or
    nothing, when an axis is deflected), so no mapped code stays active. *)
Theorem unknown_high_level_code
    (m : Virtual3DMouseController.t) (dev : UInput) (U : Z) (data : Sample) :
  BaseVirtualController.uinput_device (Virtual3DMouseController.base m) = Some dev ->
  ScData.event data = U ->
  U >= HIGH_LEVEL_EVENT_THRESHOLD ->
  HIGH_LEVEL_EVENT_MAP_FOR_UINPUT !! U = None ->
  List.filter is_press (snd (Virtual3DMouseController.update m data)) = [] /\
  Virtual3DMouseController.last_high_level_event_state
    (fst (Virtual3DMouseController.update m data))
  = (if is_any_axis_moving (BaseVirtualController.current_axis_values data)
     then None else Some U) /\
  (forall A code,
      HIGH_LEVEL_EVENT_MAP_FOR_UINPUT !! A = Some code ->
      Virtual3DMouseController.last_high_level_event_state
        (fst (Virtual3DMouseController.update m data)) <> Some A) /\
  (forall A code,
      Virtual3DMouseController.last_high_level_event_state m = Some A ->
      HIGH_LEVEL_EVENT_MAP_FOR_UINPUT !! A = Some code ->
      List.filter is_high_level_write (snd (Virtual3DMouseController.update m data))
      = [Write EV_KEY code 0 (FromHighLevel A)]).
Proof.
  intros Hdev Hev HU Hunmapped.
  destruct m as [[d last] low last_high]. cbn in Hdev. subst d.
  rewrite mouse_update_device. cbv zeta. cbn [fst snd].
  rewrite Hev.
  destruct (is_any_axis_moving (BaseVirtualController.current_axis_values data)).
  - rewrite current_high_level_event_moving, mouse_names_moving.
    split; [|split; [|split]].
    + rewrite !List.filter_app.
      rewrite filter_axis_calls by reflexivity.
      rewrite filter_mouse_release by reflexivity.
      rewrite (filter_flat_map_nil is_press (low_level_edge ∅ low))
        by (intros n _; apply low_level_edge_not_pressed; reflexivity).
      reflexivity.
    + reflexivity.
    + intros A code _. cbn. discriminate.
    + intros A code HA Hcode. cbn in HA. subst last_high.
      rewrite (mouse_release_mapped A code) by (discriminate || exact Hcode).
      rewrite !List.filter_app.
      rewrite filter_axis_calls by reflexivity.
      rewrite filter_low_level_edges by reflexivity.
      reflexivity.
  - rewrite (current_high_level_event_still _ HU).
    rewrite mouse_names_high, (mouse_press_unmapped U) by exact Hunmapped.
    split; [|split; [|split]].
    + rewrite !List.filter_app.
      rewrite filter_axis_calls by reflexivity.
      rewrite filter_mouse_release by reflexivity.
      rewrite (filter_flat_map_nil is_press (low_level_edge ∅ low))
        by (intros n _; apply low_level_edge_not_pressed; reflexivity).
      reflexivity.
    + reflexivity.
    + intros A code Hcode. cbn. intros [= ->]. congruence.
    + intros A code HA Hcode. cbn in HA. subst last_high.
      rewrite (mouse_release_mapped A code) by congruence.
      rewrite !List.filter_app.
      rewrite filter_axis_calls by reflexivity.
      rewrite filter_low_level_edges by reflexivity.
      reflexivity.
Qed.

(** DEV_FRONT active, then an unknown code while X is held deflected with no
    axis change: the button is released and nothing is pressed. *)
Lemma unknown_high_level_code_witness :
  List.filter is_press
    (snd (Virtual3DMouseController.update
            (Virtual3DMouseController.mk
               (BaseVirtualController.mk some_device (mkAxisValues 2000 0 0 0 0 0))
               ∅ (Some 0x20009))
            (sample 100 0 0 0 0 0 0x20FFF))) = [] /\
  List.filter is_high_level_write
    (snd (Virtual3DMouseController.update
            (Virtual3DMouseController.mk
               (BaseVirtualController.mk some_device (mkAxisValues 2000 0 0 0 0 0))
               ∅ (Some 0x20009))
            (sample 100 0 0 0 0 0 0x20FFF)))
  = [Write EV_KEY BTN_SIDE 0 (FromHighLevel 0x20009)].
Proof.
  destruct (unknown_high_level_code
              (Virtual3DMouseController.mk
                 (BaseVirtualController.mk some_device (mkAxisValues 2000 0 0 0 0 0))
                 ∅ (Some 0x20009))
              UInputDevice 0x20FFF (sample 100 0 0 0 0 0 0x20FFF)
              eq_refl eq_refl) as (Hp & _ & _ & Hr);
    [ vm_compute; discriminate | reflexivity | ].
  split; [exact Hp|].
  apply (Hr 0x20009 BTN_SIDE); reflexivity.
Defined.

(** ** Edge tracking *)

Lemma BUTTON_BIT_MAP_values_mapped (n : string) :
  n ∈ BUTTON_BIT_MAP_values -> is_Some (EVDEV_3DMOUSE_LOW_LEVEL_BUTTON_MAP !! n).
Proof.
  intros Hin. destruct (BUTTON_BIT_MAP_values_elem n Hin) as (bit & _ & Hc & _).
  eauto.
Qed.

(** After the loop has run with [names], running it again with the same
    [names] writes nothing. *)
Lemma low_level_edge_settled (names : gset string) (m : gmap string bool) (n : string) :
  n ∈ BUTTON_BIT_MAP_values ->
  low_level_edge names (low_level_state names m BUTTON_BIT_MAP_values) n = [].
Proof.
  intros Hin. unfold low_level_edge, Virtual3DMouseController.low_level_step.
  cbn [fst snd].
  destruct (EVDEV_3DMOUSE_LOW_LEVEL_BUTTON_MAP !! n) as [code|] eqn:Hc; [|reflexivity].
  rewrite low_level_state_lookup_in
    by (auto using BUTTON_BIT_MAP_values_NoDup; rewrite Hc; eauto).
  cbn [snd app]. apply edge_calls_same.
Qed.

(** The loop's calls depend on the button state only through what [get]
    reads for the table's names. *)
Lemma low_level_edges_agree (names : gset string) (m m' : gmap string bool) :
  (forall n, n ∈ BUTTON_BIT_MAP_values ->
             default false (m !! n) = default false (m' !! n)) ->
  flat_map (low_level_edge names m) BUTTON_BIT_MAP_values
  = flat_map (low_level_edge names m') BUTTON_BIT_MAP_values.
Proof.
  intros H. apply flat_map_ext_elem. intros n Hn.
  apply low_level_edge_agree. auto.
Qed.

Lemma low_level_state_agree (names : gset string) (m m' : gmap string bool) (n : string) :
  n ∈ BUTTON_BIT_MAP_values ->
  low_level_state names m BUTTON_BIT_MAP_values !! n
  = low_level_state names m' BUTTON_BIT_MAP_values !! n.
Proof.
  intros Hn.
  rewrite !low_level_state_lookup_in
    by auto using BUTTON_BIT_MAP_values_NoDup, BUTTON_BIT_MAP_values_mapped.
  reflexivity.
Qed.

Lemma mouse_release_unmapped (last current : option Z) :
  (forall A, last = Some A -> HIGH_LEVEL_EVENT_MAP_FOR_UINPUT !! A = None) ->
  Virtual3DMouseController.high_level_release last current = [].
Proof.
  intros H. unfold Virtual3DMouseController.high_level_release.
  destruct last as [A|]; [|reflexivity].
  rewrite (H A eq_refl). destruct (_ && _); reflexivity.
Qed.

Lemma low_level_cycle_bits_0_1 :
  flat_map (low_level_edge
              (Virtual3DMouseController.current_low_level_button_names 3 None false) ∅)
           BUTTON_BIT_MAP_values
  = [Write EV_KEY (BTN_MISC + 0) 1 (FromLowLevel "SC_KEY_1");
     Write EV_KEY (BTN_MISC + 1) 1 (FromLowLevel "SC_KEY_2")].
Proof. vm_compute. reflexivity. Qed.

Lemma low_level_cycle_bit_1_cleared :
  flat_map (low_level_edge
              (Virtual3DMouseController.current_low_level_button_names 1 None false)
              (low_level_state
                 (Virtual3DMouseController.current_low_level_button_names 3 None false)
                 ∅ BUTTON_BIT_MAP_values))
           BUTTON_BIT_MAP_values
  = [Write EV_KEY (BTN_MISC + 1) 0 (FromLowLevel "SC_KEY_2")].
Proof. vm_compute. reflexivity. Qed.

(** C6, as the code has it. On the 3D mouse, with a device, no high-level
    button active and every low-level button released: a cycle in which none
    of the six scaled axis values is non-zero and whose event is the bitmask
    with exactly bits 0 and 1 set (3) writes, as its only key events, the
    presses of SC_KEY_1 and SC_KEY_2, in table order; a following cycle, again
    with no scaled axis value non-zero, whose bitmask has only bit 1 cleared
    (1) writes, as its only key event, the release of SC_KEY_2. *)
Theorem low_level_edge_tracking
    (m : Virtual3DMouseController.t) (dev : UInput) (d1 d2 : Sample) :
  BaseVirtualController.uinput_device (Virtual3DMouseController.base m) = Some dev ->
  (forall A, Virtual3DMouseController.last_high_level_event_state m = Some A ->
             HIGH_LEVEL_EVENT_MAP_FOR_UINPUT !! A = None) ->
  (forall n, default false
               (Virtual3DMouseController.last_low_level_button_state m !! n) = false) ->
  is_any_axis_moving (BaseVirtualController.current_axis_values d1) = false ->
  ScData.event d1 = 3 ->
  is_any_axis_moving (BaseVirtualController.current_axis_values d2) = false ->
  ScData.event d2 = 1 ->
  key_writes (snd (Virtual3DMouseController.update m d1))
  = [Write EV_KEY (BTN_MISC + 0) 1 (FromLowLevel "SC_KEY_1");
     Write EV_KEY (BTN_MISC + 1) 1 (FromLowLevel "SC_KEY_2")] /\
  key_writes (snd (Virtual3DMouseController.update
                     (fst (Virtual3DMouseController.update m d1)) d2))
  = [Write EV_KEY (BTN_MISC + 1) 0 (FromLowLevel "SC_KEY_2")].
Proof.
  intros Hdev Hhigh Hlow Hstill1 Hev1 Hstill2 Hev2.
  destruct m as [[d last] low last_high]. cbn in Hdev, Hhigh, Hlow. subst d.
  rewrite mouse_update_device. cbv zeta. cbn [fst snd].
  rewrite Hstill1, Hev1.
  change (current_high_level_event 3 false) with (@None Z).
  split.
  - rewrite (mouse_release_unmapped last_high None Hhigh).
    rewrite (low_level_edges_agree _ low ∅)
      by (intros n _; rewrite Hlow, lookup_empty; reflexivity).
    rewrite low_level_cycle_bits_0_1.
    unfold key_writes. rewrite !List.filter_app.
    rewrite filter_axis_calls by reflexivity.
    reflexivity.
  - rewrite mouse_update_device. cbv zeta. cbn [snd].
    rewrite Hstill2, Hev2.
    change (current_high_level_event 1 false) with (@None Z).
    rewrite (low_level_edges_agree _
               (low_level_state
                  (Virtual3DMouseController.current_low_level_button_names 3 None false)
                  low BUTTON_BIT_MAP_values)
               (low_level_state
                  (Virtual3DMouseController.current_low_level_button_names 3 None false)
                  ∅ BUTTON_BIT_MAP_values))
      by (intros n Hn; f_equal; by apply low_level_state_agree).
    rewrite low_level_cycle_bit_1_cleared.
    unfold key_writes. rewrite !List.filter_app.
    rewrite filter_axis_calls by reflexivity.
    reflexivity.
Qed.

Lemma low_level_edge_tracking_witness :
  key_writes (snd (Virtual3DMouseController.update
                     (Virtual3DMouseController.init some_device)
                     (sample 0 0 0 0 0 0 3)))
  = [Write EV_KEY (BTN_MISC + 0) 1 (FromLowLevel "SC_KEY_1");
     Write EV_KEY (BTN_MISC + 1) 1 (FromLowLevel "SC_KEY_2")] /\
  key_writes (snd (Virtual3DMouseController.update
                     (fst (Virtual3DMouseController.update
                             (Virtual3DMouseController.init some_device)
                             (sample 0 0 0 0 0 0 3)))
                     (sample 0 0 0 0 0 0 1)))
  = [Write EV_KEY (BTN_MISC + 1) 0 (FromLowLevel "SC_KEY_2")].
Proof.
  apply (low_level_edge_tracking (Virtual3DMouseController.init some_device)
                                 UInputDevice
                                 (sample 0 0 0 0 0 0 3) (sample 0 0 0 0 0 0 1));
    try reflexivity.
  intros A H. discriminate H.
Defined.

(** C6 as stated fails when "no motion" is the absence of an axis change.
    Once X is held at raw 100 (no button down, no key event written so far),
    the cycle with the same axes and the bitmask 3 changes no axis, yet the
    3D mouse writes no press, only [syn]: a deflected axis suppresses the
    bitmask. And the gamepad writes no press for the bitmask 3 even with all
    axes at rest, since its low-level pass is never reached. *)
Lemma low_level_edge_tracking_counterexample :
  let held :=
    fst (Virtual3DMouseController.run (Virtual3DMouseController.init some_device)
                                      [sample 100 0 0 0 0 0 0]) in
  let chord := sample 100 0 0 0 0 0 3 in
  (axis_delta_nonzero
     (BaseVirtualController.last_axis_values (Virtual3DMouseController.base held))
     chord = false /\
   Virtual3DMouseController.last_high_level_event_state held = None /\
   forallb (fun n =>
              negb (default false
                      (Virtual3DMouseController.last_low_level_button_state held !! n)))
           BUTTON_BIT_MAP_values = true /\
   snd (Virtual3DMouseController.update held chord) = [Syn]) /\
  key_writes
    (snd (fst (VirtualGamepadController.update
                 (VirtualGamepadController.init some_device)
                 (sample 0 0 0 0 0 0 3)))) = [].
Proof. vm_compute. repeat split. Qed.

(** ** Idempotence *)

Lemma same_axes_current (d d' : Sample) :
  same_axes_and_event d d' ->
  BaseVirtualController.current_axis_values d'
  = BaseVirtualController.current_axis_values d.
Proof.
  intros (Hx & Hy & Hz & Ha & Hb & Hc & _).
  unfold BaseVirtualController.current_axis_values.
  rewrite Hx, Hy, Hz, Ha, Hb, Hc. reflexivity.
Qed.

Lemma axis_calls_settled (d : Sample) :
  flat_map (axis_call (scaled d)) (BaseVirtualController.current_axis_values d) = [].
Proof.
  apply flat_map_nil. intros [k v] Hin. unfold axis_call. cbn [fst snd].
  rewrite bool_decide_eq_false_2; [reflexivity|].
  intros Hne. apply Hne. clear Hne.
  unfold BaseVirtualController.current_axis_values in Hin.
  repeat (apply elem_of_cons in Hin as [Hin|Hin];
          [injection Hin as -> ->; reflexivity|]).
  by apply elem_of_nil in Hin.
Qed.

(** C8. When a sample has the six axis values and the event field of the
    sample of the previous cycle, neither dispatcher writes an axis event or a
    button press or release in that cycle. *)
Theorem update_idempotent
    (m : Virtual3DMouseController.t) (g : VirtualGamepadController.t)
    (data data' : Sample) :
  same_axes_and_event data data' ->
  let m1 := fst (Virtual3DMouseController.update m data) in
  let calls := snd (Virtual3DMouseController.update m1 data') in
  let g1 := fst (fst (VirtualGamepadController.update g data)) in
  let gcalls := snd (fst (VirtualGamepadController.update g1 data')) in
  (axis_writes calls = [] /\ key_writes calls = []) /\
  (axis_writes gcalls = [] /\ key_writes gcalls = []).
Proof.
  intros Hsame. cbv zeta.
  pose proof (same_axes_current _ _ Hsame) as Hcur.
  assert (Hev : ScData.event data' = ScData.event data)
    by (symmetry; apply Hsame).
  split.
  - destruct m as [[[dev|] last] low last_high].
    + rewrite mouse_update_device. cbv zeta. cbn [fst].
      rewrite mouse_update_device. cbv zeta. cbn [snd].
      rewrite Hcur, Hev, axis_calls_settled, mouse_release_same, mouse_press_same.
      rewrite (flat_map_nil (low_level_edge _ _) BUTTON_BIT_MAP_values)
        by (intros n Hn; by apply low_level_edge_settled).
      split; reflexivity.
    + split; reflexivity.
  - destruct g as [[[dev|] last] buttons last_high].
    + rewrite gamepad_update_device. cbv zeta. cbn [fst].
      rewrite gamepad_update_device. cbv zeta. cbn [fst snd].
      rewrite Hcur, Hev, axis_calls_settled, gamepad_release_same, gamepad_press_same.
      split; reflexivity.
    + split; reflexivity.
Qed.

Lemma update_idempotent_witness :
  (axis_writes
     (snd (Virtual3DMouseController.update
             (fst (Virtual3DMouseController.update
                     (Virtual3DMouseController.init some_device)
                     (sample 100 0 0 0 0 0 3)))
             (sample 100 0 0 0 0 0 3))) = [] /\
   key_writes
     (snd (Virtual3DMouseController.update
             (fst (Virtual3DMouseController.update
                     (Virtual3DMouseController.init some_device)
                     (sample 100 0 0 0 0 0 3)))
             (sample 100 0 0 0 0 0 3))) = []) /\
  (axis_writes
     (snd (fst (VirtualGamepadController.update
                  (fst (fst (VirtualGamepadController.update
                               (VirtualGamepadController.init some_device)
                               (sample 100 0 0 0 0 0 3))))
                  (sample 100 0 0 0 0 0 3)))) = [] /\
   key_writes
     (snd (fst (VirtualGamepadController.update
                  (fst (fst (VirtualGamepadController.update
                               (VirtualGamepadController.init some_device)
                               (sample 100 0 0 0 0 0 3))))
                  (sample 100 0 0 0 0 0 3)))) = []).
Proof.
  apply (update_idempotent (Virtual3DMouseController.init some_device)
                           (VirtualGamepadController.init some_device)
                           (sample 100 0 0 0 0 0 3) (sample 100 0 0 0 0 0 3)).
  repeat split.
Defined.

(** ** The reserved bit positions *)

Lemma land_shiftr_1 (e bit : Z) :
  0 <= bit -> Z.land (Z.shiftr e bit) 1 = Z.b2z (Z.testbit e bit).
Proof.
  intros Hbit.
  change 1 with (Z.ones 1). rewrite Z.land_ones by lia.
  change (2 ^ 1) with 2. rewrite <- Z.bit0_mod.
  rewrite Z.shiftr_spec by lia. reflexivity.
Qed.

Lemma pressed_names_agree (e1 e2 : Z) :
  (forall bit, bit <> 15 -> bit <> 16 -> Z.testbit e1 bit = Z.testbit e2 bit) ->
  pressed_names e1 = pressed_names e2.
Proof.
  intros Hbits. unfold pressed_names.
  pose proof BUTTON_BIT_MAP_codes as HF.
  generalize (∅ : gset string) as acc.
  induction HF as [|[bit name] l (_ & H15 & H16 & Hrange) _ IH]; intros acc.
  - reflexivity.
  - cbn [foldl fst snd] in *.
    rewrite !land_shiftr_1 by lia.
    rewrite (Hbits bit H15 H16). apply IH.
Qed.

Lemma pressed_names_0 : pressed_names 0 = ∅.
Proof. vm_compute. reflexivity. Qed.

Lemma mouse_names_in_range (e : Z) (moving : bool) :
  0 <= e < HIGH_LEVEL_EVENT_THRESHOLD ->
  Virtual3DMouseController.current_low_level_button_names e None moving
  = if moving then ∅ else pressed_names e.
Proof.
  intros [Hlo Hhi].
  unfold Virtual3DMouseController.current_low_level_button_names.
  destruct moving; [rewrite andb_false_r; reflexivity|].
  rewrite (bool_decide_eq_true_2 (e < HIGH_LEVEL_EVENT_THRESHOLD)) by exact Hhi.
  rewrite (bool_decide_eq_true_2 (@None Z = None)) by reflexivity.
  destruct (decide (e = 0)) as [->|Hne].
  - rewrite pressed_names_0. reflexivity.
  - rewrite (bool_decide_eq_true_2 (e > 0)) by lia. reflexivity.
Qed.

(** Every low-level write of a 3D-mouse cycle is for a name of the bit table,
    with the code of its bit position. *)
Lemma mouse_update_low_level_calls
    (m : Virtual3DMouseController.t) (data : Sample) (c : HidCall) :
  c ∈ snd (Virtual3DMouseController.update m data) ->
  is_low_level_write c = true ->
  exists bit name value,
    (bit, name) ∈ BUTTON_BIT_MAP /\ bit <> 15 /\ bit <> 16 /\
    c = Write EV_KEY (BTN_MISC + bit) value (FromLowLevel name).
Proof.
  intros Hin Hlow.
  assert (Hf : In c (List.filter is_low_level_write
                       (snd (Virtual3DMouseController.update m data)))).
  { apply List.filter_In. split; [by apply list_elem_of_In|exact Hlow]. }
  clear Hin. destruct m as [[[dev|] last] low last_high]; [|destruct Hf].
  rewrite mouse_update_device in Hf. cbv zeta in Hf. cbn [snd] in Hf.
  rewrite !List.filter_app in Hf.
  rewrite filter_axis_calls in Hf by reflexivity.
  rewrite filter_mouse_release, filter_mouse_press in Hf by reflexivity.
  cbn [app List.filter is_low_level_write] in Hf. rewrite app_nil_r in Hf.
  apply List.filter_In in Hf as [Hf _].
  apply in_flat_map in Hf as (n & Hn & Hc).
  apply list_elem_of_In in Hn.
  destruct (BUTTON_BIT_MAP_values_elem n Hn) as (bit & Hbit & Hcode & H15 & H16).
  unfold low_level_edge, Virtual3DMouseController.low_level_step in Hc.
  cbn [fst snd] in Hc. rewrite Hcode in Hc. cbn [snd app] in Hc.
  unfold edge_calls in Hc.
  destruct (_ && _).
  - destruct Hc as [<-|[]]. exists bit, n, 1. auto.
  - destruct (_ && _).
    + destruct Hc as [<-|[]]. exists bit, n, 0. auto.
    + destruct Hc.
Qed.

Lemma mouse_update_button_state_keys
    (m : Virtual3DMouseController.t) (data : Sample) :
  (forall n, is_Some (Virtual3DMouseController.last_low_level_button_state m !! n) ->
             n ∈ BUTTON_BIT_MAP_values) ->
  forall n,
    is_Some (Virtual3DMouseController.last_low_level_button_state
               (fst (Virtual3DMouseController.update m data)) !! n) ->
    n ∈ BUTTON_BIT_MAP_values.
Proof.
  intros Hinv n. destruct m as [[[dev|] last] low last_high].
  - rewrite mouse_update_device. cbv zeta.
    cbn [fst Virtual3DMouseController.last_low_level_button_state].
    intros H. apply low_level_state_dom in H as [H|H]; [|exact H].
    apply Hinv. exact H.
  - apply Hinv.
Qed.

Lemma mouse_run_cons (m : Virtual3DMouseController.t) (d : Sample) (ds : list Sample) :
  Virtual3DMouseController.run m (d :: ds)
  = (fst (Virtual3DMouseController.run
            (fst (Virtual3DMouseController.update m d)) ds),
     snd (Virtual3DMouseController.update m d)
     :: snd (Virtual3DMouseController.run
               (fst (Virtual3DMouseController.update m d)) ds)).
Proof.
  cbn [Virtual3DMouseController.run].
  destruct (Virtual3DMouseController.update m d) as [m' calls]. cbn [fst snd].
  destruct (Virtual3DMouseController.run m' ds). reflexivity.
Qed.

Lemma mouse_run_low_level_calls
    (ds : list Sample) (m : Virtual3DMouseController.t)
    (calls : list HidCall) (c : HidCall) :
  calls ∈ snd (Virtual3DMouseController.run m ds) ->
  c ∈ calls ->
  is_low_level_write c = true ->
  exists bit name value,
    (bit, name) ∈ BUTTON_BIT_MAP /\ bit <> 15 /\ bit <> 16 /\
    c = Write EV_KEY (BTN_MISC + bit) value (FromLowLevel name).
Proof.
  revert m. induction ds as [|d ds IH]; intros m Hcalls Hc Hlow.
  - by apply elem_of_nil in Hcalls.
  - rewrite mouse_run_cons in Hcalls. cbn [snd] in Hcalls.
    apply elem_of_cons in Hcalls as [->|Hcalls].
    + by apply (mouse_update_low_level_calls m d).
    + by apply (IH _ Hcalls).
Qed.

Lemma mouse_run_button_state_keys
    (ds : list Sample) (m : Virtual3DMouseController.t) :
  (forall n, is_Some (Virtual3DMouseController.last_low_level_button_state m !! n) ->
             n ∈ BUTTON_BIT_MAP_values) ->
  forall n,
    is_Some (Virtual3DMouseController.last_low_level_button_state
               (fst (Virtual3DMouseController.run m ds)) !! n) ->
    n ∈ BUTTON_BIT_MAP_values.
Proof.
  revert m. induction ds as [|d ds IH]; intros m Hinv.
  - exact Hinv.
  - rewrite mouse_run_cons. cbn [fst]. apply IH.
    by apply mouse_update_button_state_keys.
Qed.

(** C10. The bit table has no entry for bit positions 15 and 16, and the
    table is all the dispatchers test. Hence, on the 3D mouse run from its
    initial state over any samples: every low-level write is for a table
    entry, whose bit position is neither 15 nor 16 and whose code is
    [BTN_MISC] plus that position; every key of the final
    [last_low_level_button_state] is a table name. Two low-level event values
    that differ only in bits 15 and 16 give the same update, on both
    dispatchers. The gamepad never writes a low-level event nor touches
    [last_button_state]. *)
Theorem reserved_bits_never_dispatched :
  (forall bit name, (bit, name) ∈ BUTTON_BIT_MAP -> bit <> 15 /\ bit <> 16) /\
  (forall dev samples calls c,
      calls ∈ snd (Virtual3DMouseController.run
                     (Virtual3DMouseController.init dev) samples) ->
      c ∈ calls ->
      is_low_level_write c = true ->
      exists bit name value,
        (bit, name) ∈ BUTTON_BIT_MAP /\ bit <> 15 /\ bit <> 16 /\
        c = Write EV_KEY (BTN_MISC + bit) value (FromLowLevel name)) /\
  (forall dev samples name,
      is_Some (Virtual3DMouseController.last_low_level_button_state
                 (fst (Virtual3DMouseController.run
                         (Virtual3DMouseController.init dev) samples)) !! name) ->
      exists bit, (bit, name) ∈ BUTTON_BIT_MAP /\ bit <> 15 /\ bit <> 16) /\
  (forall m g data e1 e2,
      0 <= e1 < HIGH_LEVEL_EVENT_THRESHOLD ->
      0 <= e2 < HIGH_LEVEL_EVENT_THRESHOLD ->
      (forall bit, bit <> 15 -> bit <> 16 -> Z.testbit e1 bit = Z.testbit e2 bit) ->
      Virtual3DMouseController.update m (with_event data e1)
      = Virtual3DMouseController.update m (with_event data e2) /\
      VirtualGamepadController.update g (with_event data e1)
      = VirtualGamepadController.update g (with_event data e2)) /\
  (forall g data,
      VirtualGamepadController.last_button_state
        (fst (fst (VirtualGamepadController.update g data)))
      = VirtualGamepadController.last_button_state g /\
      List.filter is_low_level_write
        (snd (fst (VirtualGamepadController.update g data))) = []).
Proof.
  split; [|split; [|split; [|split]]].
  - intros bit name Hin. pose proof BUTTON_BIT_MAP_codes as HF.
    rewrite Forall_forall in HF. destruct (HF _ Hin) as (_ & H15 & H16 & _).
    auto.
  - intros dev samples calls c. apply mouse_run_low_level_calls.
  - intros dev samples name Hsome.
    apply mouse_run_button_state_keys in Hsome.
    + destruct (BUTTON_BIT_MAP_values_elem name Hsome) as (bit & Hin & _ & H15 & H16).
      eauto.
    + intros n. cbn [Virtual3DMouseController.init
                     Virtual3DMouseController.last_low_level_button_state].
      rewrite lookup_empty. intros [? ?]. discriminate.
  - intros m g data e1 e2 He1 He2 Hbits. split.
    + destruct m as [[[dev|] last] low last_high]; [|reflexivity].
      rewrite !mouse_update_device. cbv zeta.
      change (ScData.event (with_event data e1)) with e1.
      change (ScData.event (with_event data e2)) with e2.
      change (BaseVirtualController.current_axis_values (with_event data e1))
        with (BaseVirtualController.current_axis_values data).
      change (BaseVirtualController.current_axis_values (with_event data e2))
        with (BaseVirtualController.current_axis_values data).
      change (scaled (with_event data e1)) with (scaled data).
      change (scaled (with_event data e2)) with (scaled data).
      rewrite !current_high_level_event_low by lia.
      rewrite !mouse_names_in_range by assumption.
      rewrite (pressed_names_agree e1 e2 Hbits). reflexivity.
    + destruct g as [[[dev|] last] buttons last_high]; [|reflexivity].
      rewrite !gamepad_update_device. cbv zeta.
      change (ScData.event (with_event data e1)) with e1.
      change (ScData.event (with_event data e2)) with e2.
      change (BaseVirtualController.current_axis_values (with_event data e1))
        with (BaseVirtualController.current_axis_values data).
      change (BaseVirtualController.current_axis_values (with_event data e2))
        with (BaseVirtualController.current_axis_values data).
      change (scaled (with_event data e1)) with (scaled data).
      change (scaled (with_event data e2)) with (scaled data).
      rewrite !current_high_level_event_low by lia. reflexivity.
  - intros g data. destruct g as [[[dev|] last] buttons last_high].
    + rewrite gamepad_update_device. cbv zeta. cbn [fst snd].
      split; [reflexivity|].
      rewrite !List.filter_app.
      rewrite filter_axis_calls by reflexivity.
      rewrite filter_gamepad_release, filter_gamepad_press by reflexivity.
      reflexivity.
    + split; reflexivity.
Qed.

(** ** Axis translation *)

(** C9. With a device, [BaseVirtualController.update] multiplies each of the
    six raw axis values by 20; for each axis, in the order X, Y, Z, RX, RY,
    RZ, it writes an absolute-axis event with that axis's own code and the
    scaled value exactly when the scaled value differs from the value stored
    for that axis; it reports a change exactly when it wrote one; and it
    stores all six scaled values whether or not they were written. From the
    initial all-zero state, raw axes (100,0,0,0,0,0) give the single axis
    write X = 2000, in the base class and in the 3D-mouse profile, for any
    event value; from a state that already stores X = 2000, raw axes
    (100,5,0,0,0,-3) give writes for Y and RZ only. *)
Theorem axis_translation
    (dev : UInput) (lx ly lz la lb lc : Z) (data : Sample) :
  let sx := ScData.x data * 20 in
  let sy := ScData.y data * 20 in
  let sz := ScData.z data * 20 in
  let sa := ScData.a data * 20 in
  let sb := ScData.b data * 20 in
  let sc := ScData.c data * 20 in
  (AXIS_SCALE = 20 /\
   (EV_ABS, ABS_X, ABS_Y, ABS_Z, ABS_RX, ABS_RY, ABS_RZ) = (3, 0, 1, 2, 3, 4, 5)) /\
  BaseVirtualController.update
    (BaseVirtualController.mk (Some dev) (mkAxisValues lx ly lz la lb lc)) data
  = (BaseVirtualController.mk (Some dev) (mkAxisValues sx sy sz sa sb sc),
     (if bool_decide (sx <> lx) then [Write EV_ABS ABS_X sx (FromAxis KX)] else [])
     ++ (if bool_decide (sy <> ly) then [Write EV_ABS ABS_Y sy (FromAxis KY)] else [])
     ++ (if bool_decide (sz <> lz) then [Write EV_ABS ABS_Z sz (FromAxis KZ)] else [])
     ++ (if bool_decide (sa <> la) then [Write EV_ABS ABS_RX sa (FromAxis KA)] else [])
     ++ (if bool_decide (sb <> lb) then [Write EV_ABS ABS_RY sb (FromAxis KB)] else [])
     ++ (if bool_decide (sc <> lc) then [Write EV_ABS ABS_RZ sc (FromAxis KC)] else []),
     (bool_decide (sx <> lx) || bool_decide (sy <> ly) || bool_decide (sz <> lz)
      || bool_decide (sa <> la) || bool_decide (sb <> lb) || bool_decide (sc <> lc),
      [(KX, sx); (KY, sy); (KZ, sz); (KA, sa); (KB, sb); (KC, sc)])) /\
  (forall e tra rot sec usec,
      let raw := ScData.mk 100 0 0 0 0 0 tra rot e sec usec in
      snd (fst (BaseVirtualController.update (BaseVirtualController.init (Some dev)) raw))
      = [Write EV_ABS ABS_X 2000 (FromAxis KX)] /\
      axis_writes (snd (Virtual3DMouseController.update
                          (Virtual3DMouseController.init (Some dev)) raw))
      = [Write EV_ABS ABS_X 2000 (FromAxis KX)]) /\
  (forall e tra rot sec usec,
      let raw := ScData.mk 100 5 0 0 0 (-3) tra rot e sec usec in
      snd (fst (BaseVirtualController.update
                  (BaseVirtualController.mk (Some dev) (mkAxisValues 2000 0 0 0 0 0))
                  raw))
      = [Write EV_ABS ABS_Y 100 (FromAxis KY); Write EV_ABS ABS_RZ (-60) (FromAxis KC)]).
Proof.
  cbv zeta. split; [split; reflexivity|]. split; [|split].
  - unfold BaseVirtualController.update.
    cbn [BaseVirtualController.uinput_device BaseVirtualController.last_axis_values].
    rewrite axis_loop_spec.
    unfold BaseVirtualController.current_axis_values, axis_call, AXIS_SCALE.
    cbn [flat_map existsb foldl axis_set fst snd axis_get evdev_abs_map
         ax_x ax_y ax_z ax_a ax_b ax_c app orb].
    destruct (bool_decide (ScData.x data * 20 <> lx)),
             (bool_decide (ScData.y data * 20 <> ly)),
             (bool_decide (ScData.z data * 20 <> lz)),
             (bool_decide (ScData.a data * 20 <> la)),
             (bool_decide (ScData.b data * 20 <> lb)),
             (bool_decide (ScData.c data * 20 <> lc)); reflexivity.
  - intros e tra rot sec usec. split.
    + reflexivity.
    + unfold Virtual3DMouseController.init, BaseVirtualController.init.
      rewrite mouse_update_device. cbv zeta. cbn [snd].
      unfold axis_writes. rewrite !List.filter_app.
      rewrite filter_mouse_release, filter_mouse_press by reflexivity.
      rewrite filter_low_level_edges by reflexivity.
      reflexivity.
  - intros e tra rot sec usec. reflexivity.
Qed.

(** The instance from a state that already stores X = 2000: X is not
    written again, Y and RZ are, each with its own code. *)
Lemma axis_translation_witness :
  BaseVirtualController.update
    (BaseVirtualController.mk some_device (mkAxisValues 2000 0 0 0 0 0))
    (sample 100 5 0 0 0 (-3) 0)
  = (BaseVirtualController.mk some_device (mkAxisValues 2000 100 0 0 0 (-60)),
     [Write EV_ABS ABS_Y 100 (FromAxis KY); Write EV_ABS ABS_RZ (-60) (FromAxis KC)],
     (true, [(KX, 2000); (KY, 100); (KZ, 0); (KA, 0); (KB, 0); (KC, -60)])).
Proof.
  exact (proj1 (proj2 (axis_translation UInputDevice 2000 0 0 0 0 0
                                        (sample 100 5 0 0 0 (-3) 0)))).
Defined.

(** The seven [EVT_HNDL_*] / [EVT_APPL_*] codes resolve to no gamepad button:
    the derived key is the bare event name, while the table's keys carry the
    [SC_] prefix. *)
Lemma gamepad_evt_codes_unmapped :
  map VirtualGamepadController.high_level_button
      [0x2000F; 0x20010; 0x20011; 0x20012; 0x20013; 0x20014; 0x20015]
  = [None; None; None; None; None; None; None]
  /\ map VirtualGamepadController.high_level_button [0x2000D; 0x2000E; 0x20019]
     = [Some BTN_TL2; Some BTN_TR2; Some (BTN_TRIGGER_HAPPY 26)].
Proof. vm_compute. split; reflexivity. Qed.

(** * Further properties of the program *)

(** ** The mailbox under any schedule *)

Section MailboxSchedules.
Import SharedSpaceControlData.

Lemma mailbox_run_state (ops : list Op) (self : t) :
  fst (run self ops)
  = mk (last_published (_data self) ops) (flag_after (_new_data_event self) ops).
Proof.
  revert self. induction ops as [|[d|] ops IH]; intros [data flag].
  - reflexivity.
  - cbn [run]. rewrite IH. reflexivity.
  - cbn [run get_data wait _data _new_data_event].
    specialize (IH (mk data false)).
    destruct (run (mk data false) ops) as [final rs]. cbn [fst] in *.
    exact IH.
Qed.

Lemma mailbox_run_app (ops1 ops2 : list Op) (self : t) :
  run self (ops1 ++ ops2)
  = (fst (run (fst (run self ops1)) ops2),
     snd (run self ops1) ++ snd (run (fst (run self ops1)) ops2)).
Proof.
  revert self. induction ops1 as [|[d|] ops1 IH]; intros self.
  - cbn [app run fst snd]. destruct (run self ops2). reflexivity.
  - cbn [app run]. apply IH.
  - cbn [app run]. destruct (get_data self) as [self' r].
    rewrite IH. destruct (run self' ops1) as [s1 r1]. cbn [fst snd].
    destruct (run s1 ops2). reflexivity.
Qed.

Lemma last_published_app (start : option Sample) (ops1 ops2 : list Op) :
  last_published start (ops1 ++ ops2)
  = last_published (last_published start ops1) ops2.
Proof. apply foldl_app. Qed.

Lemma flag_after_app (start : bool) (ops1 ops2 : list Op) :
  flag_after start (ops1 ++ ops2) = flag_after (flag_after start ops1) ops2.
Proof. apply foldl_app. Qed.

Lemma publish_burst (during : list Sample) (self : t) :
  foldl set_data self during
  = mk (last_published (_data self) (map Publish during))
       (flag_after (_new_data_event self) (map Publish during)).
Proof.
  revert self. induction during as [|d during IH]; intros [data flag].
  - reflexivity.
  - cbn [foldl map]. rewrite IH. reflexivity.
Qed.

Lemma interleaved_state (events : list MailboxEvent) (self : t) :
  fst (run_interleaved self events)
  = mk (last_published (_data self) (locked_steps events))
       (flag_after (_new_data_event self) (locked_steps events)).
Proof.
  revert self. induction events as [|[d|during] events IH]; intros [data flag].
  - reflexivity.
  - cbn [run_interleaved]. rewrite IH. reflexivity.
  - cbn [run_interleaved]. rewrite publish_burst.
    cbn [get_data wait _data _new_data_event].
    specialize (IH (mk (last_published data (map Publish during)) false)).
    destruct (run_interleaved _ events) as [final rs]. cbn [fst] in *.
    rewrite IH. cbn [_data _new_data_event].
    unfold locked_steps. cbn [flat_map].
    fold (locked_steps events).
    rewrite <- !app_assoc, !last_published_app, !flag_after_app.
    reflexivity.
Qed.

Lemma interleaved_app (events1 events2 : list MailboxEvent) (self : t) :
  snd (run_interleaved self (events1 ++ events2))
  = snd (run_interleaved self events1)
    ++ snd (run_interleaved (fst (run_interleaved self events1)) events2).
Proof.
  revert self. induction events1 as [|[d|during] events1 IH]; intros self.
  - reflexivity.
  - cbn [app run_interleaved]. apply IH.
  - cbn [app run_interleaved].
    destruct (get_data (foldl set_data self during)) as [self' r].
    specialize (IH self').
    destruct (run_interleaved self' (events1 ++ events2)) as [f12 r12].
    destruct (run_interleaved self' events1) as [f1 r1].
    cbn [fst snd] in *. rewrite IH. reflexivity.
Qed.

(** X1. For every schedule of the producer's [set_data] calls and the
    consumer's [get_data] calls, including [set_data] calls that run between
    the return of a [get_data]'s wait and its locked copy: the slot holds the
    last published sample, and the flag is set exactly when the last locked
    step was a [set_data]; a [get_data] placed after any schedule returns the
    last sample published before its locked copy, those of its own window
    included ("no data" only if nothing was ever published), whereas what its
    wait returned is whether a [set_data] ran after the previous locked copy
    and before the wait ended, so a wait that timed out can still be followed
    by a new sample. *)
Theorem mailbox_schedule
    (self : t) (events : list MailboxEvent) (during : list Sample) :
  fst (run_interleaved self events)
  = mk (last_published (_data self) (locked_steps events))
       (flag_after (_new_data_event self) (locked_steps events))
  /\ snd (run_interleaved self (events ++ [GetData during]))
     = snd (run_interleaved self events)
       ++ [(flag_after (_new_data_event self) (locked_steps events),
            last_published (_data self)
                           (locked_steps events ++ map Publish during))]
  /\ (forall d0 d1,
         snd (run_interleaved init [SetData d0; GetData []; GetData [d1]])
         = [(true, Some d0); (false, Some d1)]).
Proof.
  split; [apply interleaved_state|]. split; [|reflexivity].
  rewrite interleaved_app, interleaved_state. f_equal.
  cbn [run_interleaved snd wait _new_data_event]. rewrite publish_burst.
  cbn [get_data _data snd]. rewrite last_published_app.
  destruct (last_published _ (map Publish during)); reflexivity.
Qed.

End MailboxSchedules.

(** ** The daemon link *)

Section DaemonLink.
Import ScDaemonComm.

(** X2. [connect] returns the value it leaves in [_is_connected]; that value is
    [True] exactly when both [scConnect2] and [scGetDevNum] returned 0, in
    which case the three counts are the ones the library reported; otherwise
    the counts keep their earlier values. It never calls [scDisconnect]. *)
Theorem connect_result (self : t) (sc_status : Z) (get_dev_num : Z * (Z * Z * Z)) :
  let r := connect self sc_status get_dev_num in
  snd r = _is_connected (fst (fst r)) /\
  (snd r = true <-> sc_status = 0 /\ fst get_dev_num = 0) /\
  (snd r = true ->
   (_dev_count (fst (fst r)), _used_dev_count (fst (fst r)), _max_dev_idx (fst (fst r)))
   = snd get_dev_num) /\
  (snd r = false ->
   _dev_count (fst (fst r)) = _dev_count self /\
   _used_dev_count (fst (fst r)) = _used_dev_count self /\
   _max_dev_idx (fst (fst r)) = _max_dev_idx self) /\
  (scDisconnect ∉ snd (fst r)).
Proof.
  assert (Hnot : forall l, l = [scConnect2 true None; scGetDevNum]
                           \/ l = [scConnect2 true None] ->
                           scDisconnect ∉ l).
  { intros l [->| ->] H;
      repeat (apply elem_of_cons in H as [H|H]; [discriminate|]);
      by apply elem_of_nil in H. }
  destruct get_dev_num as [st [[dn un] mx]]. unfold connect. cbv zeta.
  destruct (bool_decide_reflect (sc_status = 0)) as [H0|H0];
    [destruct (bool_decide_reflect (st = 0)) as [H1|H1]|];
    cbn [fst snd _is_connected _dev_count _used_dev_count _max_dev_idx];
    (split; [reflexivity|]); (split; [split; [intros H; try discriminate H; tauto
                                             |intros [? ?]; try reflexivity; tauto]|]);
    (split; [intros H; try discriminate H; reflexivity|]);
    (split; [intros H; try discriminate H; repeat split|]);
    apply Hnot; auto.
Qed.

(** X3. When [scConnect2] succeeds but [scGetDevNum] fails, [connect] leaves the
    object marked as not connected without calling [scDisconnect], and a
    later [disconnect] does not call it either: the daemon connection that
    was opened is never closed. *)
Theorem connect_leaves_connection_open
    (self : t) (get_dev_num : Z * (Z * Z * Z)) :
  fst get_dev_num <> 0 ->
  snd (fst (connect self 0 get_dev_num)) = [scConnect2 true None; scGetDevNum] /\
  snd (connect self 0 get_dev_num) = false /\
  disconnect (fst (fst (connect self 0 get_dev_num)))
  = (fst (fst (connect self 0 get_dev_num)), []).
Proof.
  intros Hne. destruct get_dev_num as [st [[dn un] mx]]. cbn [fst] in Hne.
  unfold connect. cbn [bool_decide]. 
  rewrite (bool_decide_eq_true_2 (0 = 0)) by reflexivity.
  rewrite (bool_decide_eq_false_2 (st = 0)) by exact Hne.
  repeat split.
Qed.

Lemma connect_leaves_connection_open_witness :
  snd (fst (connect init 0 (2, (0, 0, 0)))) = [scConnect2 true None; scGetDevNum] /\
  snd (connect init 0 (2, (0, 0, 0))) = false /\
  disconnect (fst (fst (connect init 0 (2, (0, 0, 0)))))
  = (fst (fst (connect init 0 (2, (0, 0, 0)))), []).
Proof.
  apply (connect_leaves_connection_open init (2, (0, 0, 0))).
  discriminate.
Defined.

(** X4. [disconnect] calls [scDisconnect] exactly when the object was connected,
    always leaves it not connected, and is idempotent: a second [disconnect]
    makes no library call; after it [fetch_data] makes no library call either
    and returns no data with status 1. *)
Theorem disconnect_idempotent (self : t) (device_index : Z) (answer : Z * Sample) :
  snd (disconnect self) = (if _is_connected self then [scDisconnect] else []) /\
  _is_connected (fst (disconnect self)) = false /\
  disconnect (fst (disconnect self)) = (fst (disconnect self), []) /\
  fetch_data (fst (disconnect self)) device_index answer = ((None, 1), []).
Proof.
  destruct self as [[|] dn un mx]; repeat split.
Qed.

(** X5. [fetch_data] returns data exactly when it returns status 0, and then the
    data is what the library wrote; it calls the library (once) exactly when
    the object is connected. A library status is passed through unchanged,
    so status 1 can mean either "not connected" or the library's own 1. *)
Theorem fetch_data_result (self : t) (device_index : Z) (answer : Z * Sample) :
  let r := fetch_data self device_index answer in
  (snd (fst r) = 0 <-> is_Some (fst (fst r))) /\
  (forall d, fst (fst r) = Some d <->
             _is_connected self = true /\ fst answer = 0 /\ d = snd answer) /\
  snd r = (if _is_connected self then [scFetchStdData device_index] else []) /\
  (_is_connected self = true -> snd (fst r) = fst answer) /\
  (_is_connected self = false -> snd (fst r) = 1).
Proof.
  destruct self as [[|] dn un mx]; destruct answer as [st d0];
    unfold fetch_data; cbv zeta;
    cbn [_is_connected negb fst snd].
  - destruct (bool_decide_reflect (st = 0)) as [->|Hne]; cbn [fst snd].
    + split_and!; [naive_solver| |reflexivity|reflexivity|discriminate].
      intros d. split; [intros [= ->]; auto|intros (_ & _ & ->); reflexivity].
    + split_and!; [|intros d|reflexivity|reflexivity|discriminate].
      * split; [intros H; contradiction|intros [? H]; discriminate H].
      * split; [discriminate|intros (_ & H & _); contradiction].
  - split_and!; [|intros d|reflexivity|discriminate|reflexivity].
    + split; [discriminate|intros [? H]; discriminate H].
    + split; [discriminate|intros (H & _); discriminate H].
Qed.

End DaemonLink.

(** ** The acquisition loop *)

Section Acquisition.
Import SpaceControlDataAcquirer.

Lemma iteration_connected (comm : ScDaemonComm.t) (device_index : Z)
    (shared : SharedSpaceControlData.t) (status : Z) (d : Sample) :
  ScDaemonComm._is_connected comm = true ->
  iteration comm device_index shared (status, d)
  = if bool_decide (status = 0)
    then (SharedSpaceControlData.set_data shared d,
          [scFetchStdData device_index],
          [mkLog DEBUG FetchedData 0 (decode_event 0)])
    else (shared, [scFetchStdData device_index],
          mkLog DEBUG FetchedNone status (decode_event status)
          :: (if is_error_status status
              then [mkLog ERROR ReturnedErrorStatus status (decode_event status)]
              else [mkLog DEBUG NothingChanged status (decode_event status)])).
Proof.
  intros Hc. unfold iteration, ScDaemonComm.fetch_data. rewrite Hc.
  cbn [negb]. cbv zeta.
  destruct (bool_decide_reflect (status = 0)) as [->|Hne].
  - reflexivity.
  - cbn [fst snd]. unfold is_error_status.
    rewrite (bool_decide_eq_true_2 (status <> 0)) by exact Hne.
    cbn [andb].
    destruct (bool_decide_reflect (status <> 1)) as [H1|H1];
      destruct (bool_decide_reflect (status <> -1)) as [H2|H2];
      cbn [andb]; try reflexivity.
    + rewrite (bool_decide_eq_false_2 (status = 1)) by exact H1.
      rewrite (bool_decide_eq_true_2 (status = -1)) by lia. reflexivity.
    + rewrite (bool_decide_eq_true_2 (status = 1)) by lia. reflexivity.
    + rewrite (bool_decide_eq_true_2 (status = 1)) by lia. reflexivity.
Qed.

Lemma run_cons (comm : ScDaemonComm.t) (device_index : Z)
    (shared : SharedSpaceControlData.t) (answer : Z * Sample)
    (answers : list (Z * Sample)) :
  run comm device_index shared (answer :: answers)
  = let r1 := iteration comm device_index shared answer in
    let r2 := run comm device_index (fst (fst r1)) answers in
    (fst (fst r2), snd (fst r1) ++ snd (fst r2), snd r1 ++ snd r2).
Proof.
  cbn [run]. cbv zeta.
  destruct (iteration comm device_index shared answer) as [[s1 c1] l1].
  cbn [fst snd].
  destruct (run comm device_index s1 answers) as [[s2 c2] l2]. reflexivity.
Qed.

(** X6. On a connected link, whatever the library answers: the loop calls
    [scFetchStdData] once per pass; it logs an error exactly for the statuses
    other than 0, 1 and -1, in order; and the mailbox ends up holding the
    sample of the last answer with status 0 (its earlier content if there was
    none), flagged as new if there was one, so that the consumer's next
    [get_data] returns exactly that sample. *)
Theorem acquirer_publishes_last_ok
    (comm : ScDaemonComm.t) (device_index : Z)
    (shared : SharedSpaceControlData.t) (answers : list (Z * Sample)) :
  ScDaemonComm._is_connected comm = true ->
  let r := run comm device_index shared answers in
  fst (fst r)
  = SharedSpaceControlData.mk
      (last_ok_answer (SharedSpaceControlData._data shared) answers)
      (SharedSpaceControlData._new_data_event shared
       || existsb (fun answer => bool_decide (fst answer = 0)) answers) /\
  snd (fst r) = map (fun _ => scFetchStdData device_index) answers /\
  map log_status (List.filter is_error_log (snd r))
  = List.filter is_error_status (map fst answers) /\
  snd (SharedSpaceControlData.get_data (fst (fst r)))
  = last_ok_answer (SharedSpaceControlData._data shared) answers.
Proof.
  intros Hc. cbv zeta.
  assert (H : fst (fst (run comm device_index shared answers))
              = SharedSpaceControlData.mk
                  (last_ok_answer (SharedSpaceControlData._data shared) answers)
                  (SharedSpaceControlData._new_data_event shared
                   || existsb (fun answer => bool_decide (fst answer = 0)) answers)
              /\ snd (fst (run comm device_index shared answers))
                 = map (fun _ => scFetchStdData device_index) answers
              /\ map log_status
                     (List.filter is_error_log (snd (run comm device_index shared answers)))
                 = List.filter is_error_status (map fst answers)).
  { revert shared. induction answers as [|[st d] answers IH]; intros [data flag].
    - cbn. rewrite orb_false_r. auto.
    - rewrite run_cons. cbv zeta. rewrite (iteration_connected _ _ _ _ _ Hc).
      cbn [map List.filter existsb foldl last_ok_answer fst snd].
      fold (last_ok_answer (if bool_decide (st = 0) then Some d else data) answers).
      destruct (bool_decide_reflect (st = 0)) as [->|Hne]; cbn [fst snd].
      + destruct (IH (SharedSpaceControlData.set_data
                        (SharedSpaceControlData.mk data flag) d)) as (H1 & H2 & H3).
        rewrite H1, H2. cbn [SharedSpaceControlData.set_data
                              SharedSpaceControlData._data
                              SharedSpaceControlData._new_data_event].
        rewrite orb_true_r. split; [reflexivity|]. split; [reflexivity|].
        rewrite List.filter_app. cbn [List.filter is_error_log log_level app].
        change (is_error_status 0) with false. cbn iota. exact H3.
      + destruct (IH (SharedSpaceControlData.mk data flag)) as (H1 & H2 & H3).
        rewrite H1, H2. cbn [SharedSpaceControlData._data
                              SharedSpaceControlData._new_data_event orb].
        split; [reflexivity|]. split; [reflexivity|].
        rewrite List.filter_app.
        destruct (is_error_status st);
          cbn [List.filter is_error_log log_level app map log_status];
          rewrite H3; reflexivity. }
  destruct H as (H1 & H2 & H3). rewrite H1.
  split; [reflexivity|]. split; [exact H2|]. split; [exact H3|].
  cbn [SharedSpaceControlData.get_data SharedSpaceControlData._data snd].
  destruct (last_ok_answer _ _); reflexivity.
Qed.

Lemma acquirer_publishes_last_ok_witness :
  snd (SharedSpaceControlData.get_data
         (fst (fst (run (ScDaemonComm.mk true 1 1 0) 0 SharedSpaceControlData.init
                        [(0, sample 1 2 3 4 5 6 0); (0, sample 7 0 0 0 0 0 0);
                         (1, sample 0 0 0 0 0 0 0); (4, sample 0 0 0 0 0 0 0)]))))
  = Some (sample 7 0 0 0 0 0 0).
Proof.
  exact (proj2 (proj2 (proj2
    (acquirer_publishes_last_ok (ScDaemonComm.mk true 1 1 0) 0
       SharedSpaceControlData.init
       [(0, sample 1 2 3 4 5 6 0); (0, sample 7 0 0 0 0 0 0);
        (1, sample 0 0 0 0 0 0 0); (4, sample 0 0 0 0 0 0 0)] eq_refl)))).
Defined.

(** X7. On a link that is not connected the loop never calls the library, never
    publishes, and never logs an error: each pass only logs, at debug level,
    status 1 as "nothing changed" (a status whose name in [EVENT_ID_TO_NAME]
    is SC_COMMUNICATION_ERROR), so the consumer just keeps timing out. *)
Theorem acquirer_disconnected_silent
    (comm : ScDaemonComm.t) (device_index : Z)
    (shared : SharedSpaceControlData.t) (answers : list (Z * Sample)) :
  ScDaemonComm._is_connected comm = false ->
  run comm device_index shared answers
  = (shared, [],
     flat_map (fun _ => [mkLog DEBUG FetchedNone 1 "SC_COMMUNICATION_ERROR";
                         mkLog DEBUG NothingChanged 1 "SC_COMMUNICATION_ERROR"])
              answers).
Proof.
  intros Hc. induction answers as [|answer answers IH].
  - reflexivity.
  - rewrite run_cons. cbv zeta.
    assert (Hit : iteration comm device_index shared answer
                  = (shared, [],
                     [mkLog DEBUG FetchedNone 1 "SC_COMMUNICATION_ERROR";
                      mkLog DEBUG NothingChanged 1 "SC_COMMUNICATION_ERROR"])).
    { unfold iteration, ScDaemonComm.fetch_data. rewrite Hc. reflexivity. }
    rewrite Hit. cbn [fst snd]. rewrite IH. reflexivity.
Qed.

Lemma acquirer_disconnected_silent_witness :
  run ScDaemonComm.init 0 SharedSpaceControlData.init [(0, sample 1 2 3 4 5 6 0)]
  = (SharedSpaceControlData.init, [],
     [mkLog DEBUG FetchedNone 1 "SC_COMMUNICATION_ERROR";
      mkLog DEBUG NothingChanged 1 "SC_COMMUNICATION_ERROR"]).
Proof.
  exact (acquirer_disconnected_silent ScDaemonComm.init 0
           SharedSpaceControlData.init [(0, sample 1 2 3 4 5 6 0)] eq_refl).
Defined.

End Acquisition.

(** ** Decoding an event value *)

Section Decoding.

Lemma pressed_buttons_fold (e : Z) (l : list (Z * string)) (acc : list string) :
  foldl (fun acc item => if bit_set e item then acc ++ [snd item] else acc) acc l
  = acc ++ map snd (List.filter (bit_set e) l).
Proof.
  revert acc. induction l as [|item l IH]; intros acc; cbn [foldl List.filter map].
  - rewrite app_nil_r. reflexivity.
  - rewrite IH. destruct (bit_set e item); cbn [map].
    + rewrite <- app_assoc. reflexivity.
    + reflexivity.
Qed.

Lemma pressed_names_fold (e : Z) (l : list (Z * string)) (acc : gset string) :
  foldl (fun names item => if bit_set e item then {[ snd item ]} ∪ names else names)
        acc l
  = list_to_set (map snd (List.filter (bit_set e) l)) ∪ acc.
Proof.
  revert acc. induction l as [|item l IH]; intros acc; cbn [foldl List.filter map].
  - cbn [list_to_set]. set_solver.
  - rewrite IH. destruct (bit_set e item); cbn [map list_to_set]; set_solver.
Qed.

Lemma bit_set_testbit (e : Z) (item : Z * string) :
  item ∈ BUTTON_BIT_MAP -> bit_set e item = Z.testbit e (fst item).
Proof.
  intros Hin. pose proof BUTTON_BIT_MAP_codes as HF.
  rewrite Forall_forall in HF. destruct (HF _ Hin) as (_ & _ & _ & Hrange).
  unfold bit_set. rewrite land_shiftr_1 by lia.
  destruct (Z.testbit e (fst item)); reflexivity.
Qed.

Lemma filter_ext_elem {A : Type} (p q : A -> bool) (l : list A) :
  (forall x, x ∈ l -> p x = q x) -> List.filter p l = List.filter q l.
Proof.
  induction l as [|x l IH]; intros H; cbn [List.filter]; [reflexivity|].
  rewrite (H x) by apply list_elem_of_here.
  rewrite IH; [reflexivity|].
  intros y Hy. apply H. by apply list_elem_of_further.
Qed.

Lemma pressed_buttons_spec (e : Z) :
  pressed_buttons e
  = map snd (List.filter (fun item => Z.testbit e (fst item)) BUTTON_BIT_MAP).
Proof.
  unfold pressed_buttons.
  change (foldl (fun acc item => if bit_set e item then acc ++ [snd item] else acc)
                [] BUTTON_BIT_MAP
          = map snd (List.filter (fun item => Z.testbit e (fst item)) BUTTON_BIT_MAP)).
  rewrite pressed_buttons_fold. cbn [app]. f_equal.
  apply filter_ext_elem. intros item Hin. by apply bit_set_testbit.
Qed.

Lemma pressed_names_spec (e : Z) :
  pressed_names e = list_to_set (pressed_buttons e).
Proof.
  rewrite pressed_buttons_spec. unfold pressed_names.
  change (foldl (fun names item =>
                   if bit_set e item then {[ snd item ]} ∪ names else names)
                (∅ : gset string) BUTTON_BIT_MAP
          = list_to_set
              (map snd (List.filter (fun item => Z.testbit e (fst item))
                                    BUTTON_BIT_MAP))).
  rewrite pressed_names_fold.
  rewrite (filter_ext_elem (bit_set e) (fun item => Z.testbit e (fst item)))
    by (intros item Hin; by apply bit_set_testbit).
  apply union_empty_r_L.
Qed.

Lemma pressed_names_elem (e : Z) (n : string) :
  n ∈ pressed_names e <->
  exists bit, (bit, n) ∈ BUTTON_BIT_MAP /\ Z.testbit e bit = true.
Proof.
  rewrite pressed_names_spec, pressed_buttons_spec, elem_of_list_to_set.
  rewrite list_elem_of_In, in_map_iff. split.
  - intros ([bit n'] & Heq & Hin). cbn [snd] in Heq. subst n'.
    apply List.filter_In in Hin as [Hin Hbit].
    exists bit. split; [by apply list_elem_of_In|exact Hbit].
  - intros (bit & Hin & Hbit). exists (bit, n). split; [reflexivity|].
    apply List.filter_In. split; [by apply list_elem_of_In|exact Hbit].
Qed.

(** X8. [decode_event] lists, in table order, exactly the names whose bit is set
    in the value, and that is the set of names the dispatchers take as
    pressed for the same value. *)
Theorem decode_event_lists_pressed_names (e : Z) :
  pressed_buttons e
  = map snd (List.filter (fun item => Z.testbit e (fst item)) BUTTON_BIT_MAP)
  /\ pressed_names e = list_to_set (pressed_buttons e)
  /\ VirtualGamepadController.pressed_bits e
     = list_to_set
         (map fst (List.filter (fun item => Z.testbit e (fst item)) BUTTON_BIT_MAP)).
Proof.
  split; [apply pressed_buttons_spec|]. split; [apply pressed_names_spec|].
  unfold VirtualGamepadController.pressed_bits.
  assert (Hfold : forall l (acc : gset Z),
             foldl (fun bits item => if bit_set e item then {[ fst item ]} ∪ bits else bits)
                   acc l
             = list_to_set (map fst (List.filter (bit_set e) l)) ∪ acc).
  { induction l as [|item l IH]; intros acc; cbn [foldl List.filter map].
    - cbn [list_to_set]. set_solver.
    - rewrite IH. destruct (bit_set e item); cbn [map list_to_set]; set_solver. }
  change (foldl (fun bits item => if bit_set e item then {[ fst item ]} ∪ bits else bits)
                (∅ : gset Z) BUTTON_BIT_MAP
          = list_to_set
              (map fst (List.filter (fun item => Z.testbit e (fst item))
                                    BUTTON_BIT_MAP))).
  rewrite Hfold.
  rewrite (filter_ext_elem (bit_set e) (fun item => Z.testbit e (fst item)))
    by (intros item Hin; by apply bit_set_testbit).
  apply union_empty_r_L.
Qed.

Lemma EVENT_ID_TO_NAME_keys (e : Z) (name : string) :
  EVENT_ID_TO_NAME !! e = Some name ->
  -1 <= e <= 11 \/ e >= HIGH_LEVEL_EVENT_THRESHOLD.
Proof.
  intros H. apply elem_of_list_to_map_2 in H.
  assert (HF : Forall (fun kv => -1 <= fst kv <= 11
                                 \/ fst kv >= HIGH_LEVEL_EVENT_THRESHOLD)
                      EVENT_ID_TO_NAME_items).
  { apply (bool_decide_unpack _). vm_compute. exact I. }
  rewrite Forall_forall in HF. apply (HF _ H).
Qed.

(** X9. Among the values of the low-level range, [decode_event] describes a key
    event exactly for those above 11: the bitmasks 1 to 11 (button 1 alone,
    buttons 1 and 2, ...) are shadowed by the status codes of
    [EVENT_ID_TO_NAME] and decode to a status name. Above 11 the result is
    the joined list of pressed names, or the number itself when no table bit
    is set. *)
Theorem decode_event_low_level_range (e : Z) :
  0 < e < HIGH_LEVEL_EVENT_THRESHOLD ->
  (String.prefix "Key event" (decode_event e) = true <-> 11 < e) /\
  (11 < e ->
   decode_event e
   = match pressed_buttons e with
     | [] => String.append "Key event " (pretty e)
     | _ :: _ => String.append "Key event: " (String.concat " + " (pressed_buttons e))
     end).
Proof.
  intros [Hlo Hhi].
  assert (Hbig : 11 < e ->
                 decode_event e
                 = match pressed_buttons e with
                   | [] => String.append "Key event " (pretty e)
                   | _ :: _ => String.append "Key event: "
                                 (String.concat " + " (pressed_buttons e))
                   end).
  { intros H11. unfold decode_event.
    destruct (EVENT_ID_TO_NAME !! e) as [name|] eqn:Hname.
    - apply EVENT_ID_TO_NAME_keys in Hname. lia.
    - rewrite (bool_decide_eq_true_2 (e > 0)) by lia.
      rewrite (bool_decide_eq_true_2 (e < HIGH_LEVEL_EVENT_THRESHOLD)) by lia.
      reflexivity. }
  split; [|exact Hbig]. split.
  - intros Hprefix. destruct (decide (11 < e)) as [|Hsmall]; [assumption|].
    exfalso.
    assert (Hcases : e = 1 \/ e = 2 \/ e = 3 \/ e = 4 \/ e = 5 \/ e = 6 \/ e = 7
                     \/ e = 8 \/ e = 9 \/ e = 10 \/ e = 11) by lia.
    repeat (destruct Hcases as [->|Hcases];
            [vm_compute in Hprefix; discriminate Hprefix|]).
    subst e. vm_compute in Hprefix. discriminate Hprefix.
  - intros H11. rewrite (Hbig H11).
    destruct (pressed_buttons e); reflexivity.
Qed.

Lemma decode_event_low_level_range_witness :
  (String.prefix "Key event" (decode_event 12) = true <-> 11 < 12) /\
  (11 < 12 ->
   decode_event 12
   = match pressed_buttons 12 with
     | [] => String.append "Key event " (pretty 12)
     | _ :: _ => String.append "Key event: " (String.concat " + " (pressed_buttons 12))
     end).
Proof.
  apply (decode_event_low_level_range 12). vm_compute. split; reflexivity.
Defined.

End Decoding.

(** ** Presses and releases over a whole run *)

Section Bracketing.
Import Virtual3DMouseController.

Lemma low_level_down_app (l1 l2 : list HidCall) (D D1 : gset string) :
  low_level_down D l1 = Some D1 ->
  low_level_down D (l1 ++ l2) = low_level_down D1 l2.
Proof.
  revert D. induction l1 as [|c l1 IH]; intros D H.
  - cbn in H. injection H as ->. reflexivity.
  - destruct c as [etype code value [k|e|n]|]; cbn [app low_level_down] in *;
      try (by apply IH).
    destruct (bool_decide (value = 1)), (bool_decide (n ∈ D));
      try discriminate; by apply IH.
Qed.

Lemma low_level_down_skip (l : list HidCall) (D : gset string) :
  List.filter is_low_level_write l = [] -> low_level_down D l = Some D.
Proof.
  induction l as [|c l IH]; intros H; [reflexivity|].
  destruct c as [etype code value [k|e|n]|];
    cbn [List.filter is_low_level_write low_level_down] in *;
    try discriminate; by apply IH.
Qed.

Lemma low_level_edge_down (names : gset string) (m : gmap string bool)
    (n : string) (D : gset string) :
  (forall n', n' ∈ D <-> m !! n' = Some true) ->
  exists D',
    low_level_down D (low_level_edge names m n) = Some D' /\
    (forall n', n' ∈ D' <-> fst (low_level_step names (m, []) n) !! n' = Some true).
Proof.
  intros Hcorr. unfold low_level_edge, low_level_step. cbn [fst snd].
  destruct (EVDEV_3DMOUSE_LOW_LEVEL_BUTTON_MAP !! n) as [code|];
    cbn [fst snd app]; [|by exists D].
  assert (Hn : n ∈ D <-> default false (m !! n) = true).
  { rewrite Hcorr. destruct (m !! n) as [[|]|]; cbn; split; congruence. }
  unfold edge_calls.
  destruct (bool_decide (n ∈ names)), (default false (m !! n));
    cbn [andb negb low_level_down].
  - exists D. split; [reflexivity|]. intros n'.
    destruct (decide (n' = n)) as [->|Hne].
    + rewrite lookup_insert_eq. tauto.
    + rewrite lookup_insert_ne by congruence. apply Hcorr.
  - rewrite (bool_decide_eq_true_2 (1 = 1)) by reflexivity.
    rewrite (bool_decide_eq_false_2 (n ∈ D)) by (rewrite Hn; discriminate).
    exists ({[ n ]} ∪ D). split; [reflexivity|]. intros n'.
    destruct (decide (n' = n)) as [->|Hne].
    + rewrite lookup_insert_eq. set_solver.
    + rewrite lookup_insert_ne by congruence. rewrite <- Hcorr. set_solver.
  - rewrite (bool_decide_eq_false_2 (0 = 1)) by discriminate.
    rewrite (bool_decide_eq_true_2 (n ∈ D)) by (rewrite Hn; reflexivity).
    exists (D ∖ {[ n ]}). split; [reflexivity|]. intros n'.
    destruct (decide (n' = n)) as [->|Hne].
    + rewrite lookup_insert_eq. set_solver.
    + rewrite lookup_insert_ne by congruence. rewrite <- Hcorr. set_solver.
  - exists D. split; [reflexivity|]. intros n'.
    destruct (decide (n' = n)) as [->|Hne].
    + rewrite lookup_insert_eq, Hn. split; discriminate.
    + rewrite lookup_insert_ne by congruence. apply Hcorr.
Qed.

Lemma low_level_loop_down (names : gset string) (l : list string) :
  NoDup l ->
  forall (m : gmap string bool) (D : gset string),
    (forall n, n ∈ D <-> m !! n = Some true) ->
    exists D',
      low_level_down D (flat_map (low_level_edge names m) l) = Some D' /\
      (forall n, n ∈ D' <-> low_level_state names m l !! n = Some true).
Proof.
  induction l as [|n l IH]; intros Hnd m D Hcorr.
  - exists D. split; [reflexivity|exact Hcorr].
  - apply NoDup_cons in Hnd as [Hn Hnd].
    destruct (low_level_edge_down names m n D Hcorr) as (D1 & Hd1 & Hcorr1).
    destruct (IH Hnd _ D1 Hcorr1) as (D' & Hd' & Hcorr').
    exists D'. split.
    + cbn [flat_map]. rewrite (low_level_down_app _ _ _ _ Hd1).
      rewrite <- Hd'. f_equal. apply flat_map_ext_elem. intros n' Hn'.
      apply low_level_edge_agree. f_equal. symmetry.
      apply low_level_step_lookup_ne. intros ->. contradiction.
    + exact Hcorr'.
Qed.

Lemma mouse_update_low_level_down (m : t) (data : Sample) (D : gset string) :
  (forall n, n ∈ D <-> last_low_level_button_state m !! n = Some true) ->
  exists D',
    low_level_down D (snd (update m data)) = Some D' /\
    (forall n, n ∈ D' <-> last_low_level_button_state (fst (update m data)) !! n
                          = Some true).
Proof.
  intros Hcorr. destruct m as [[[dev|] last] low last_high].
  - rewrite mouse_update_device. cbv zeta.
    cbn [fst snd last_low_level_button_state] in *.
    destruct (low_level_loop_down
                (current_low_level_button_names (ScData.event data)
                   (current_high_level_event (ScData.event data)
                      (is_any_axis_moving (BaseVirtualController.current_axis_values data)))
                   (is_any_axis_moving (BaseVirtualController.current_axis_values data)))
                BUTTON_BIT_MAP_values BUTTON_BIT_MAP_values_NoDup low D Hcorr)
      as (D' & Hd' & Hcorr').
    exists D'. split; [|exact Hcorr'].
    rewrite (low_level_down_app _ _ D D)
      by (apply low_level_down_skip, filter_axis_calls; reflexivity).
    rewrite (low_level_down_app _ _ D D).
    + rewrite (low_level_down_app _ _ D D' Hd'). reflexivity.
    + apply low_level_down_skip. rewrite List.filter_app.
      rewrite filter_mouse_release, filter_mouse_press by reflexivity.
      reflexivity.
  - exists D. split; [reflexivity|exact Hcorr].
Qed.

Lemma mouse_run_low_level_down (samples : list Sample) (m : t) (D : gset string) :
  (forall n, n ∈ D <-> last_low_level_button_state m !! n = Some true) ->
  exists D',
    low_level_down D (concat (snd (run m samples))) = Some D' /\
    (forall n, n ∈ D' <-> last_low_level_button_state (fst (run m samples)) !! n
                          = Some true).
Proof.
  revert m D. induction samples as [|d samples IH]; intros m D Hcorr.
  - exists D. split; [reflexivity|exact Hcorr].
  - rewrite mouse_run_cons. cbn [fst snd concat].
    destruct (mouse_update_low_level_down m d D Hcorr) as (D1 & Hd1 & Hcorr1).
    destruct (IH _ D1 Hcorr1) as (D' & Hd' & Hcorr').
    exists D'. split; [|exact Hcorr'].
    rewrite (low_level_down_app _ _ _ _ Hd1). exact Hd'.
Qed.

(** X10. Over any run of the 3D mouse from its initial state, the low-level key
    events are well bracketed per button: a button is never pressed while it
    is down nor released while it is up, and the buttons left down at the end
    are exactly those stored as pressed in
    [last_low_level_button_state]. *)
Theorem mouse_low_level_well_bracketed (dev : option UInput) (samples : list Sample) :
  exists down,
    low_level_down ∅ (concat (snd (run (init dev) samples))) = Some down /\
    (forall n, n ∈ down <->
               last_low_level_button_state (fst (run (init dev) samples)) !! n
               = Some true).
Proof.
  apply mouse_run_low_level_down. intros n.
  cbn [init last_low_level_button_state]. rewrite lookup_empty. set_solver.
Qed.

Lemma high_level_down_app (l1 l2 : list HidCall) (D D1 : option Z) :
  high_level_down D l1 = Some D1 ->
  high_level_down D (l1 ++ l2) = high_level_down D1 l2.
Proof.
  revert D. induction l1 as [|c l1 IH]; intros D H.
  - cbn in H. injection H as ->. reflexivity.
  - destruct c as [etype code value [k|e|n]|]; cbn [app high_level_down] in *;
      try (by apply IH).
    destruct (bool_decide (value = 1)).
    + destruct D; [discriminate|by apply IH].
    + destruct (bool_decide (D = Some e)); [by apply IH|discriminate].
Qed.

Lemma high_level_down_skip (l : list HidCall) (D : option Z) :
  List.filter is_high_level_write l = [] -> high_level_down D l = Some D.
Proof.
  induction l as [|c l IH]; intros H; [reflexivity|].
  destruct c as [etype code value [k|e|n]|];
    cbn [List.filter is_high_level_write high_level_down] in *;
    try discriminate; by apply IH.
Qed.

Lemma high_level_block_down (last current : option Z) :
  high_level_down (active_high_level_button last)
                  (high_level_release last current ++ high_level_press last current)
  = Some (active_high_level_button current).
Proof.
  unfold high_level_release, high_level_press, active_high_level_button.
  destruct last as [A|], current as [B|].
  - destruct (decide (A = B)) as [->|Hne].
    + rewrite (bool_decide_eq_false_2 (Some B <> Some B)) by auto.
      cbn [andb app high_level_down]. reflexivity.
    + rewrite (bool_decide_eq_true_2 (Some A <> Some B)) by congruence.
      rewrite (bool_decide_eq_true_2 (Some B <> Some A)) by congruence.
      cbn [andb].
      destruct (HIGH_LEVEL_EVENT_MAP_FOR_UINPUT !! A) as [ca|];
        destruct (HIGH_LEVEL_EVENT_MAP_FOR_UINPUT !! B) as [cb|].
      * rewrite !(bool_decide_eq_true_2 (is_Some (Some _))) by eauto.
        cbn [app high_level_down].
        rewrite (bool_decide_eq_false_2 (0 = 1)) by discriminate.
        rewrite (bool_decide_eq_true_2 (Some A = Some A)) by reflexivity.
        rewrite (bool_decide_eq_true_2 (1 = 1)) by reflexivity. reflexivity.
      * rewrite (bool_decide_eq_true_2 (is_Some (Some ca))) by eauto.
        rewrite (bool_decide_eq_false_2 (is_Some (@None Z)))
          by (intros [? ?]; discriminate).
        cbn [app high_level_down].
        rewrite (bool_decide_eq_false_2 (0 = 1)) by discriminate.
        rewrite (bool_decide_eq_true_2 (Some A = Some A)) by reflexivity.
        reflexivity.
      * rewrite (bool_decide_eq_true_2 (is_Some (Some cb))) by eauto.
        rewrite (bool_decide_eq_false_2 (is_Some (@None Z)))
          by (intros [? ?]; discriminate).
        cbn [app high_level_down].
        rewrite (bool_decide_eq_true_2 (1 = 1)) by reflexivity. reflexivity.
      * rewrite (bool_decide_eq_false_2 (is_Some (@None Z)))
          by (intros [? ?]; discriminate).
        reflexivity.
  - rewrite (bool_decide_eq_true_2 (Some A <> None)) by discriminate.
    cbn [andb].
    destruct (HIGH_LEVEL_EVENT_MAP_FOR_UINPUT !! A) as [ca|].
    + rewrite (bool_decide_eq_true_2 (is_Some (Some ca))) by eauto.
      cbn [app high_level_down].
      rewrite (bool_decide_eq_false_2 (0 = 1)) by discriminate.
      rewrite (bool_decide_eq_true_2 (Some A = Some A)) by reflexivity.
      reflexivity.
    + rewrite (bool_decide_eq_false_2 (is_Some (@None Z)))
        by (intros [? ?]; discriminate).
      reflexivity.
  - rewrite (bool_decide_eq_true_2 (Some B <> None)) by discriminate.
    cbn [andb].
    destruct (HIGH_LEVEL_EVENT_MAP_FOR_UINPUT !! B) as [cb|].
    + rewrite (bool_decide_eq_true_2 (is_Some (Some cb))) by eauto.
      cbn [app high_level_down].
      rewrite (bool_decide_eq_true_2 (1 = 1)) by reflexivity. reflexivity.
    + rewrite (bool_decide_eq_false_2 (is_Some (@None Z)))
        by (intros [? ?]; discriminate).
      reflexivity.
  - reflexivity.
Qed.

Lemma mouse_update_high_level_down (m : t) (data : Sample) :
  high_level_down (active_high_level_button (last_high_level_event_state m))
                  (snd (update m data))
  = Some (active_high_level_button
            (last_high_level_event_state (fst (update m data)))).
Proof.
  destruct m as [[[dev|] last] low last_high].
  - rewrite mouse_update_device. cbv zeta.
    cbn [fst snd last_high_level_event_state].
    rewrite (high_level_down_app _ _ _ (active_high_level_button last_high))
      by (apply high_level_down_skip, filter_axis_calls; reflexivity).
    rewrite (high_level_down_app _ _ _ _ (high_level_block_down _ _)).
    apply high_level_down_skip. rewrite List.filter_app.
    rewrite filter_low_level_edges by reflexivity. reflexivity.
  - reflexivity.
Qed.

(** X11. Over any run of the 3D mouse from its initial state, the high-level key
    events are well bracketed: a high-level button is pressed only while none
    is down, every release is of the event pressed last, so at most one is
    down at any time, and the one left down at the end is the stored
    [last_high_level_event_state] when that has a button in the table. *)
Theorem mouse_high_level_well_bracketed (dev : option UInput) (samples : list Sample) :
  high_level_down None (concat (snd (run (init dev) samples)))
  = Some (active_high_level_button
            (last_high_level_event_state (fst (run (init dev) samples)))).
Proof.
  change (@None Z)
    with (active_high_level_button (last_high_level_event_state (init dev))) at 1.
  generalize (init dev) as m.
  induction samples as [|d samples IH]; intros m.
  - reflexivity.
  - rewrite mouse_run_cons. cbn [fst snd concat].
    rewrite (high_level_down_app _ _ _ _ (mouse_update_high_level_down m d)).
    apply IH.
Qed.

End Bracketing.

(** ** What the 3D mouse remembers and what it can write *)

Section MouseRuns.
Import Virtual3DMouseController.

Lemma mouse_run_app1 (samples : list Sample) (m : t) (d : Sample) :
  fst (run m (samples ++ [d])) = fst (update (fst (run m samples)) d).
Proof.
  revert m. induction samples as [|d0 samples IH]; intros m.
  - cbn [app]. rewrite mouse_run_cons. reflexivity.
  - cbn [app]. rewrite !mouse_run_cons. cbn [fst]. apply IH.
Qed.

Lemma mouse_update_device_kept (m : t) (d : Sample) :
  BaseVirtualController.uinput_device (base (fst (update m d)))
  = BaseVirtualController.uinput_device (base m).
Proof.
  destruct m as [[[dev|] last] low last_high]; [|reflexivity].
  rewrite mouse_update_device. reflexivity.
Qed.

Lemma mouse_run_device_kept (samples : list Sample) (m : t) :
  BaseVirtualController.uinput_device (base (fst (run m samples)))
  = BaseVirtualController.uinput_device (base m).
Proof.
  revert m. induction samples as [|d samples IH]; intros m; [reflexivity|].
  rewrite mouse_run_cons. cbn [fst]. rewrite IH. apply mouse_update_device_kept.
Qed.

Lemma mouse_run_no_device (samples : list Sample) :
  run (init None) samples = (init None, map (fun _ => []) samples).
Proof.
  induction samples as [|d samples IH]; [reflexivity|].
  rewrite mouse_run_cons.
  change (update (init None) d) with (init None, @nil HidCall).
  cbn [fst snd]. rewrite IH. reflexivity.
Qed.

(** Two controllers with a device whose button states have only table names
    as keys are in the same state after the same sample. *)
Lemma mouse_update_forgets (m1 m2 : t) (dev : UInput) (d : Sample) :
  BaseVirtualController.uinput_device (base m1) = Some dev ->
  BaseVirtualController.uinput_device (base m2) = Some dev ->
  (forall n, is_Some (last_low_level_button_state m1 !! n) ->
             n ∈ BUTTON_BIT_MAP_values) ->
  (forall n, is_Some (last_low_level_button_state m2 !! n) ->
             n ∈ BUTTON_BIT_MAP_values) ->
  fst (update m1 d) = fst (update m2 d).
Proof.
  intros Hd1 Hd2 Hk1 Hk2.
  destruct m1 as [[d1 last1] low1 high1], m2 as [[d2 last2] low2 high2].
  cbn in Hd1, Hd2, Hk1, Hk2. subst d1 d2.
  rewrite !mouse_update_device. cbv zeta. cbn [fst]. f_equal.
  apply map_eq. intros n.
  destruct (decide (n ∈ BUTTON_BIT_MAP_values)) as [Hin|Hnotin].
  - by apply low_level_state_agree.
  - rewrite !low_level_state_lookup_notin by exact Hnotin.
    destruct (low1 !! n) eqn:E1; [exfalso; apply Hnotin, Hk1; eauto|].
    destruct (low2 !! n) eqn:E2; [exfalso; apply Hnotin, Hk2; eauto|].
    reflexivity.
Qed.

(** X12. The state of the 3D mouse after a cycle is a function of that cycle's
    sample alone: whatever samples two runs from the initial state saw
    before, they are in the same state after the same last sample. *)
Theorem mouse_state_depends_on_last_sample
    (dev : option UInput) (before1 before2 : list Sample) (d : Sample) :
  fst (run (init dev) (before1 ++ [d])) = fst (run (init dev) (before2 ++ [d])).
Proof.
  destruct dev as [dev|].
  - rewrite !mouse_run_app1.
    apply (mouse_update_forgets _ _ dev).
    + apply mouse_run_device_kept.
    + apply mouse_run_device_kept.
    + apply mouse_run_button_state_keys. intros n.
      cbn [init last_low_level_button_state]. rewrite lookup_empty.
      intros [? ?]. discriminate.
    + apply mouse_run_button_state_keys. intros n.
      cbn [init last_low_level_button_state]. rewrite lookup_empty.
      intros [? ?]. discriminate.
  - rewrite !mouse_run_no_device. reflexivity.
Qed.

Lemma BUTTON_BIT_MAP_code (bit : Z) (n : string) :
  (bit, n) ∈ BUTTON_BIT_MAP ->
  EVDEV_3DMOUSE_LOW_LEVEL_BUTTON_MAP !! n = Some (BTN_MISC + bit).
Proof.
  intros Hin. pose proof BUTTON_BIT_MAP_codes as HF.
  rewrite Forall_forall in HF. destruct (HF _ Hin) as (Hc & _). exact Hc.
Qed.

Lemma testbit_above_threshold (e bit : Z) :
  0 < e < HIGH_LEVEL_EVENT_THRESHOLD -> 17 <= bit -> Z.testbit e bit = false.
Proof.
  intros [Hlo Hhi] Hbit. apply Z.bits_above_log2; [lia|].
  assert (Z.log2 e < 17); [|lia].
  apply Z.log2_lt_pow2; [lia|exact Hhi].
Qed.

(** A name the 3D mouse takes as pressed sits at one of the bit positions 0
    to 14. *)
Lemma mouse_names_low_bits (e : Z) (high : option Z) (moving : bool) (n : string) :
  n ∈ current_low_level_button_names e high moving ->
  exists bit, (bit, n) ∈ BUTTON_BIT_MAP /\ 0 <= bit <= 14.
Proof.
  unfold current_low_level_button_names.
  destruct (bool_decide_reflect (e > 0)) as [Hpos|]; cbn [andb];
    [|intros H; by apply not_elem_of_empty in H].
  destruct (bool_decide_reflect (e < HIGH_LEVEL_EVENT_THRESHOLD)) as [Hlt|];
    cbn [andb]; [|intros H; by apply not_elem_of_empty in H].
  destruct (bool_decide (high = None) && negb moving);
    [|intros H; by apply not_elem_of_empty in H].
  intros Hin. apply pressed_names_elem in Hin as (bit & Hin & Hbit).
  exists bit. split; [exact Hin|].
  pose proof BUTTON_BIT_MAP_codes as HF. rewrite Forall_forall in HF.
  destruct (HF _ Hin) as (_ & H15 & H16 & Hrange). cbn [fst] in *.
  destruct (decide (17 <= bit)) as [Hbig|]; [|lia].
  rewrite (testbit_above_threshold e bit) in Hbit by lia. discriminate.
Qed.

Lemma mouse_update_low_bits (m : t) (d : Sample) :
  (forall n, last_low_level_button_state m !! n = Some true ->
             exists bit, (bit, n) ∈ BUTTON_BIT_MAP /\ 0 <= bit <= 14) ->
  (forall c, c ∈ snd (update m d) -> is_low_level_write c = true ->
             exists bit name value,
               (bit, name) ∈ BUTTON_BIT_MAP /\ 0 <= bit <= 14 /\
               c = Write EV_KEY (BTN_MISC + bit) value (FromLowLevel name)) /\
  (forall n, last_low_level_button_state (fst (update m d)) !! n = Some true ->
             exists bit, (bit, n) ∈ BUTTON_BIT_MAP /\ 0 <= bit <= 14).
Proof.
  intros Hinv. destruct m as [[[dev|] last] low last_high].
  2:{ split; [intros c Hc; by apply elem_of_nil in Hc|exact Hinv]. }
  cbn [last_low_level_button_state] in Hinv.
  rewrite mouse_update_device. cbv zeta. cbn [fst snd last_low_level_button_state].
  set (names := current_low_level_button_names _ _ _).
  split.
  - intros c Hin Hlow.
    assert (Hf : In c (List.filter is_low_level_write
                         (flat_map (low_level_edge names low) BUTTON_BIT_MAP_values))).
    { apply list_elem_of_In in Hin.
      assert (Hc : In c (List.filter is_low_level_write
                (flat_map (axis_call last) (BaseVirtualController.current_axis_values d)
                 ++ (high_level_release last_high
                       (current_high_level_event (ScData.event d)
                          (is_any_axis_moving (BaseVirtualController.current_axis_values d)))
                     ++ high_level_press last_high
                          (current_high_level_event (ScData.event d)
                             (is_any_axis_moving
                                (BaseVirtualController.current_axis_values d))))
                 ++ flat_map (low_level_edge names low) BUTTON_BIT_MAP_values ++ [Syn])))
        by (apply List.filter_In; auto).
      rewrite !List.filter_app in Hc.
      rewrite filter_axis_calls in Hc by reflexivity.
      rewrite filter_mouse_release, filter_mouse_press in Hc by reflexivity.
      cbn [app List.filter is_low_level_write] in Hc. rewrite app_nil_r in Hc.
      exact Hc. }
    apply List.filter_In in Hf as [Hf _].
    apply in_flat_map in Hf as (n & Hn & Hc).
    apply list_elem_of_In in Hn.
    destruct (BUTTON_BIT_MAP_values_elem n Hn) as (bit & Hbit & Hcode & _).
    assert (Hlow14 : bool_decide (n ∈ names) = true
                     \/ default false (low !! n) = true -> 0 <= bit <= 14).
    { intros [His|Hwas].
      - apply bool_decide_eq_true_1 in His.
        apply mouse_names_low_bits in His as (bit' & Hin' & Hr).
        apply BUTTON_BIT_MAP_code in Hin'. rewrite Hcode in Hin'.
        injection Hin' as Hin'. lia.
      - destruct (low !! n) as [[|]|] eqn:E; try discriminate Hwas.
        destruct (Hinv n E) as (bit' & Hin' & Hr).
        apply BUTTON_BIT_MAP_code in Hin'. rewrite Hcode in Hin'.
        injection Hin' as Hin'. lia. }
    unfold low_level_edge, low_level_step in Hc.
    cbn [fst snd] in Hc. rewrite Hcode in Hc. cbn [snd app] in Hc.
    unfold edge_calls in Hc.
    destruct (bool_decide (n ∈ names)), (default false (low !! n));
      cbn [andb negb] in Hc; try destruct Hc as [<-|[]]; try destruct Hc.
    + exists bit, n, 1. auto.
    + exists bit, n, 0. auto.
  - intros n Htrue.
    destruct (decide (n ∈ BUTTON_BIT_MAP_values)) as [Hin|Hnotin].
    + rewrite low_level_state_lookup_in in Htrue
        by auto using BUTTON_BIT_MAP_values_NoDup, BUTTON_BIT_MAP_values_mapped.
      injection Htrue as Htrue. apply bool_decide_eq_true_1 in Htrue.
      by apply mouse_names_low_bits in Htrue.
    + rewrite low_level_state_lookup_notin in Htrue by exact Hnotin.
      by apply Hinv.
Qed.

(** X13. Because a low-level event value is below 0x20000, none of the bits 17 to
    31 can be set in it: over any run of the 3D mouse from its initial state
    every low-level key event is for one of the bit positions 0 to 14 (codes
    [BTN_MISC] to [BTN_MISC + 14]); the fifteen "_B" buttons of the tables
    are never pressed or released. *)
Theorem mouse_b_buttons_unreachable
    (dev : option UInput) (samples : list Sample) (calls : list HidCall) (c : HidCall) :
  calls ∈ snd (run (init dev) samples) ->
  c ∈ calls ->
  is_low_level_write c = true ->
  exists bit name value,
    (bit, name) ∈ BUTTON_BIT_MAP /\ 0 <= bit <= 14 /\
    c = Write EV_KEY (BTN_MISC + bit) value (FromLowLevel name).
Proof.
  assert (Hinit : forall n, last_low_level_button_state (init dev) !! n = Some true ->
                            exists bit, (bit, n) ∈ BUTTON_BIT_MAP /\ 0 <= bit <= 14).
  { intros n. cbn [init last_low_level_button_state]. rewrite lookup_empty.
    discriminate. }
  revert Hinit. generalize (init dev) as m.
  induction samples as [|d samples IH]; intros m Hinv Hcalls Hc Hlow.
  - by apply elem_of_nil in Hcalls.
  - rewrite mouse_run_cons in Hcalls. cbn [snd] in Hcalls.
    destruct (mouse_update_low_bits m d Hinv) as [Hwrites Hinv'].
    apply elem_of_cons in Hcalls as [->|Hcalls].
    + by apply Hwrites.
    + by apply (IH _ Hinv' Hcalls).
Qed.

Lemma mouse_b_buttons_unreachable_witness :
  exists bit name value,
    (bit, name) ∈ BUTTON_BIT_MAP /\ 0 <= bit <= 14 /\
    Write EV_KEY (BTN_MISC + 0) 1 (FromLowLevel "SC_KEY_1")
    = Write EV_KEY (BTN_MISC + bit) value (FromLowLevel name).
Proof.
  apply (mouse_b_buttons_unreachable some_device [sample 0 0 0 0 0 0 1]
           [Write EV_KEY (BTN_MISC + 0) 1 (FromLowLevel "SC_KEY_1"); Syn]).
  - vm_compute. apply list_elem_of_here.
  - apply list_elem_of_here.
  - reflexivity.
Defined.

(** X14. In one cycle the 3D mouse never writes both a high-level press and a
    low-level press: when the event value is taken as a high-level event the
    set of pressed low-level names is empty, and otherwise no high-level
    press is written. *)
Theorem mouse_press_kinds_exclusive (m : t) (d : Sample) :
  List.filter (fun c => is_press c && is_high_level_write c) (snd (update m d)) = []
  \/ List.filter (fun c => is_press c && is_low_level_write c) (snd (update m d)) = [].
Proof.
  destruct m as [[[dev|] last] low last_high]; [|left; reflexivity].
  rewrite mouse_update_device. cbv zeta. cbn [snd].
  destruct (current_high_level_event (ScData.event d)
              (is_any_axis_moving (BaseVirtualController.current_axis_values d)))
    as [h|].
  - right. rewrite mouse_names_high. rewrite !List.filter_app.
    rewrite filter_axis_calls by reflexivity.
    rewrite filter_mouse_release, filter_mouse_press by reflexivity.
    rewrite (filter_flat_map_nil _ (low_level_edge ∅ low))
      by (intros n _; apply low_level_edge_not_pressed; reflexivity).
    reflexivity.
  - left. rewrite !List.filter_app.
    rewrite filter_axis_calls by reflexivity.
    rewrite filter_mouse_release by reflexivity.
    rewrite filter_low_level_edges by (intros; apply andb_false_r).
    reflexivity.
Qed.

End MouseRuns.

(** ** Writes against the declared capabilities *)

Section Capabilities.

Lemma high_level_code_declared (e code : Z) :
  HIGH_LEVEL_EVENT_MAP_FOR_UINPUT !! e = Some code ->
  code ∈ ALL_3DMOUSE_UINPUT_BUTTONS.
Proof.
  intros H. unfold ALL_3DMOUSE_UINPUT_BUTTONS.
  apply elem_of_elements, elem_of_list_to_set, elem_of_app. right.
  apply list_elem_of_fmap. exists (e, code). split; [reflexivity|].
  by apply elem_of_map_to_list.
Qed.

Lemma low_level_code_declared (n : string) (code : Z) :
  EVDEV_3DMOUSE_LOW_LEVEL_BUTTON_MAP !! n = Some code ->
  code ∈ ALL_3DMOUSE_UINPUT_BUTTONS.
Proof.
  intros H. unfold ALL_3DMOUSE_UINPUT_BUTTONS.
  apply elem_of_elements, elem_of_list_to_set, elem_of_app. left.
  apply list_elem_of_fmap. exists (n, code). split; [reflexivity|].
  by apply elem_of_map_to_list.
Qed.

Lemma axis_call_elem (last : AxisValues) (items : list (AxisKey * Z)) (c : HidCall) :
  c ∈ flat_map (axis_call last) items ->
  exists k v, (k, v) ∈ items /\ c = Write EV_ABS (evdev_abs_map k) v (FromAxis k).
Proof.
  intros Hin. apply list_elem_of_In, in_flat_map in Hin as ([k v] & Hitem & Hc).
  unfold axis_call in Hc. cbn [fst snd] in Hc.
  destruct (bool_decide _); [|destruct Hc].
  destruct Hc as [<-|[]]. exists k, v. split; [by apply list_elem_of_In|reflexivity].
Qed.

(** X15. Every call the 3D mouse makes on its device stays within what
    [_setup_uinput] declared for it: an axis write is for one of the six
    declared axes, a key write is for a code of
    [ALL_3DMOUSE_UINPUT_BUTTONS] and carries 0 or 1. *)
Theorem mouse_writes_declared
    (m : Virtual3DMouseController.t) (d : Sample) (c : HidCall) :
  c ∈ snd (Virtual3DMouseController.update m d) ->
  match c with
  | Write etype code value _ =>
      (etype = EV_ABS /\
       code ∈ map fst (cap_EV_ABS (setup_capabilities ALL_3DMOUSE_UINPUT_BUTTONS)))
      \/ (etype = EV_KEY /\
          code ∈ cap_EV_KEY (setup_capabilities ALL_3DMOUSE_UINPUT_BUTTONS) /\
          (value = 0 \/ value = 1))
  | Syn => True
  end.
Proof.
  intros Hin. destruct m as [[[dev|] last] low last_high];
    [|by apply elem_of_nil in Hin].
  rewrite mouse_update_device in Hin. cbv zeta in Hin. cbn [snd] in Hin.
  change (cap_EV_KEY (setup_capabilities ALL_3DMOUSE_UINPUT_BUTTONS))
    with ALL_3DMOUSE_UINPUT_BUTTONS.
  change (map fst (cap_EV_ABS (setup_capabilities ALL_3DMOUSE_UINPUT_BUTTONS)))
    with [ABS_X; ABS_Y; ABS_Z; ABS_RX; ABS_RY; ABS_RZ].
  rewrite !elem_of_app in Hin.
  destruct Hin as [Hax|[[Hrel|Hpress]|[Hlow|Hsyn]]].
  - apply axis_call_elem in Hax as (k & v & _ & ->). left. split; [reflexivity|].
    apply list_elem_of_In. destruct k; cbn; tauto.
  - unfold Virtual3DMouseController.high_level_release in Hrel.
    destruct last_high as [prev|]; [|by apply elem_of_nil in Hrel].
    destruct (_ && _); [|by apply elem_of_nil in Hrel].
    destruct (HIGH_LEVEL_EVENT_MAP_FOR_UINPUT !! prev) as [code|] eqn:Hcode;
      [|by apply elem_of_nil in Hrel].
    apply list_elem_of_singleton in Hrel as ->. right.
    split; [reflexivity|]. split; [by apply (high_level_code_declared prev)|auto].
  - unfold Virtual3DMouseController.high_level_press in Hpress.
    destruct (current_high_level_event _ _) as [cur|];
      [|by apply elem_of_nil in Hpress].
    destruct (_ && _); [|by apply elem_of_nil in Hpress].
    destruct (HIGH_LEVEL_EVENT_MAP_FOR_UINPUT !! cur) as [code|] eqn:Hcode;
      [|by apply elem_of_nil in Hpress].
    apply list_elem_of_singleton in Hpress as ->. right.
    split; [reflexivity|]. split; [by apply (high_level_code_declared cur)|auto].
  - apply list_elem_of_In, in_flat_map in Hlow as (n & _ & Hc).
    unfold low_level_edge, Virtual3DMouseController.low_level_step in Hc.
    cbn [fst snd] in Hc.
    destruct (EVDEV_3DMOUSE_LOW_LEVEL_BUTTON_MAP !! n) as [code|] eqn:Hcode;
      cbn [snd app] in Hc; [|destruct Hc].
    unfold edge_calls in Hc.
    destruct (_ && _).
    + destruct Hc as [<-|[]]. right. split; [reflexivity|].
      split; [by apply (low_level_code_declared n)|auto].
    + destruct (_ && _); [|destruct Hc].
      destruct Hc as [<-|[]]. right. split; [reflexivity|].
      split; [by apply (low_level_code_declared n)|auto].
  - apply list_elem_of_singleton in Hsyn as ->. exact I.
Qed.

Lemma mouse_writes_declared_witness :
  (EV_ABS = EV_ABS /\
   ABS_X ∈ map fst (cap_EV_ABS (setup_capabilities ALL_3DMOUSE_UINPUT_BUTTONS)))
  \/ (EV_ABS = EV_KEY /\
      ABS_X ∈ cap_EV_KEY (setup_capabilities ALL_3DMOUSE_UINPUT_BUTTONS) /\
      (2000 = 0 \/ 2000 = 1)).
Proof.
  apply (mouse_writes_declared (Virtual3DMouseController.init some_device)
                               (sample 100 0 0 0 0 0 0)
                               (Write EV_ABS ABS_X 2000 (FromAxis KX))).
  vm_compute. apply list_elem_of_here.
Defined.

(** X16. The axis pass does not clamp: with raw readings in the range of a
    [c_short], every axis write carries 20 times the raw reading of its axis,
    a value between -655360 and 655340, which lies inside the range
    [-32767, 32767] declared for every axis by [_setup_uinput] exactly when
    the raw reading is between -1638 and 1638. *)
Theorem axis_writes_not_clamped
    (self : BaseVirtualController.t) (d : Sample) (c : HidCall)
    (buttons : list Z) :
  c_short_axes d ->
  c ∈ snd (fst (BaseVirtualController.update self d)) ->
  Forall (fun entry => abs_min (snd entry) = -32767 /\ abs_max (snd entry) = 32767)
         (cap_EV_ABS (setup_capabilities buttons)) /\
  exists k,
    c = Write EV_ABS (evdev_abs_map k) (raw_axis d k * AXIS_SCALE) (FromAxis k) /\
    -655360 <= raw_axis d k * AXIS_SCALE <= 655340 /\
    (-32767 <= raw_axis d k * AXIS_SCALE <= 32767 <-> -1638 <= raw_axis d k <= 1638).
Proof.
  intros Hrange Hin. split.
  { cbn [setup_capabilities cap_EV_ABS]. repeat constructor. }
  destruct self as [[dev|] last]; [|by apply elem_of_nil in Hin].
  rewrite base_update_device in Hin. cbn [fst snd] in Hin.
  apply axis_call_elem in Hin as (k & v & Hitem & ->).
  exists k.
  assert (Hv : v = raw_axis d k * AXIS_SCALE).
  { unfold BaseVirtualController.current_axis_values in Hitem.
    repeat (apply elem_of_cons in Hitem as [Hitem|Hitem];
            [injection Hitem as -> ->; reflexivity|]).
    by apply elem_of_nil in Hitem. }
  subst v. split; [reflexivity|].
  specialize (Hrange k). unfold AXIS_SCALE. lia.
Qed.

Lemma axis_writes_not_clamped_witness :
  exists k,
    Write EV_ABS ABS_X 40000 (FromAxis KX)
    = Write EV_ABS (evdev_abs_map k)
            (raw_axis (sample 2000 0 0 0 0 0 0) k * AXIS_SCALE) (FromAxis k) /\
    -655360 <= raw_axis (sample 2000 0 0 0 0 0 0) k * AXIS_SCALE <= 655340 /\
    (-32767 <= raw_axis (sample 2000 0 0 0 0 0 0) k * AXIS_SCALE <= 32767
     <-> -1638 <= raw_axis (sample 2000 0 0 0 0 0 0) k <= 1638).
Proof.
  refine (proj2 (axis_writes_not_clamped
                   (BaseVirtualController.init some_device)
                   (sample 2000 0 0 0 0 0 0)
                   (Write EV_ABS ABS_X 40000 (FromAxis KX)) [] _ _)).
  - intros k. destruct k; cbn; lia.
  - vm_compute. apply list_elem_of_here.
Defined.

End Capabilities.

(** ** The dispatch loop *)

Section DispatchLoop.
Import Main.

(** X17. A dispatch fails exactly when a sample reaches a gamepad controller that
    has a device, and then with the [NameError] of its missing table; the
    3D mouse, which is updated first, has by then made the calls of a
    complete update. Under the enablement flags of the source the gamepad
    controller is absent, so no dispatch fails. *)
Theorem dispatch_outcome (cs : Controllers) (new_data : option Sample) :
  snd (dispatch cs new_data)
  = match new_data, gamepad_controller cs with
    | Some _, Some g =>
        match BaseVirtualController.uinput_device (VirtualGamepadController.base g) with
        | Some _ => Raised (NameError "GAMEPAD_BIT_TO_EVDEV_CODE")
        | None => Returned
        end
    | _, _ => Returned
    end
  /\ snd (fst (fst (dispatch cs new_data)))
     = match new_data, mouse_controller cs with
       | Some data, Some m => snd (Virtual3DMouseController.update m data)
       | _, _ => []
       end
  /\ (forall mouse_dev gamepad_dev,
         snd (dispatch (make_controllers ENABLE_3DMOUSE_VIRTUAL_DEVICE
                                         ENABLE_GAMEPAD_VIRTUAL_DEVICE
                                         mouse_dev gamepad_dev) new_data)
         = Returned).
Proof.
  split; [|split].
  - destruct new_data as [data|]; [|reflexivity].
    destruct cs as [mc [g|]]; unfold dispatch;
      cbn [mouse_controller gamepad_controller].
    + destruct (match mc with
                | Some m => let '(m', calls) := Virtual3DMouseController.update m data in
                            (Some m', calls)
                | None => (None, [])
                end) as [mouse' mouse_calls].
      destruct g as [[[dev|] last] buttons last_high].
      * rewrite gamepad_update_device. reflexivity.
      * reflexivity.
    + destruct (match mc with
                | Some m => let '(m', calls) := Virtual3DMouseController.update m data in
                            (Some m', calls)
                | None => (None, [])
                end) as [mouse' mouse_calls].
      reflexivity.
  - destruct new_data as [data|]; [|destruct (mouse_controller cs); reflexivity].
    destruct cs as [[m|] gc]; unfold dispatch;
      cbn [mouse_controller gamepad_controller].
    + destruct (Virtual3DMouseController.update m data) as [m' calls].
      destruct gc as [g|]; [|reflexivity].
      destruct (VirtualGamepadController.update g data) as [[g' gcalls] outcome].
      reflexivity.
    + destruct gc as [g|]; [|reflexivity].
      destruct (VirtualGamepadController.update g data) as [[g' gcalls] outcome].
      reflexivity.
  - intros mouse_dev gamepad_dev. destruct new_data as [data|]; [|reflexivity].
    unfold dispatch, make_controllers, ENABLE_3DMOUSE_VIRTUAL_DEVICE,
      ENABLE_GAMEPAD_VIRTUAL_DEVICE.
    cbn [mouse_controller gamepad_controller].
    destruct (Virtual3DMouseController.update
                (Virtual3DMouseController.init mouse_dev) data) as [m' calls].
    reflexivity.
Qed.

Lemma mouse_update_repeat (m : Virtual3DMouseController.t) (d : Sample) :
  snd (Virtual3DMouseController.update
         (fst (Virtual3DMouseController.update m d)) d)
  = match BaseVirtualController.uinput_device (Virtual3DMouseController.base m) with
    | Some _ => [Syn]
    | None => []
    end.
Proof.
  destruct m as [[[dev|] last] low last_high]; [|reflexivity].
  rewrite mouse_update_device. cbv zeta. cbn [fst].
  rewrite mouse_update_device. cbv zeta.
  cbn [snd Virtual3DMouseController.base BaseVirtualController.uinput_device].
  rewrite axis_calls_settled, mouse_release_same, mouse_press_same.
  rewrite (flat_map_nil (low_level_edge _ _) BUTTON_BIT_MAP_values)
    by (intros n Hn; by apply low_level_edge_settled).
  reflexivity.
Qed.

(** X18. The consumer loop after one publication and no further one: the first
    turn takes the sample and dispatches it; the second turn's [get_data]
    times out (the flag is down) but still hands over the same sample, which
    is dispatched again. With the 3D mouse alone this second dispatch writes
    no axis event and no key event, only the [syn] of a controller that has
    a device. *)
Theorem stale_sample_redispatched_quietly
    (shared : SharedSpaceControlData.t) (m : Virtual3DMouseController.t)
    (S1 : Sample) :
  let cs := mkControllers (Some m) None in
  let turn1 := loop_iteration (SharedSpaceControlData.set_data shared S1) cs in
  let turn2 := loop_iteration (fst turn1) (fst (fst (fst (snd turn1)))) in
  SharedSpaceControlData.wait (fst turn1) = false /\
  snd (fst (fst (snd turn1))) = snd (Virtual3DMouseController.update m S1) /\
  snd (fst (fst (snd turn2)))
  = match BaseVirtualController.uinput_device (Virtual3DMouseController.base m) with
    | Some _ => [Syn]
    | None => []
    end /\
  snd (snd turn2) = Returned.
Proof.
  cbv zeta. unfold loop_iteration.
  cbn [SharedSpaceControlData.set_data SharedSpaceControlData.get_data
       SharedSpaceControlData._data SharedSpaceControlData._new_data_event
       SharedSpaceControlData.wait fst snd].
  unfold dispatch. cbn [mouse_controller gamepad_controller].
  destruct (Virtual3DMouseController.update m S1) as [m1 calls1] eqn:Hup.
  cbn [fst snd mouse_controller gamepad_controller].
  split; [reflexivity|]. split; [reflexivity|].
  pose proof (mouse_update_repeat m S1) as Hrep. rewrite Hup in Hrep.
  cbn [fst] in Hrep.
  destruct (Virtual3DMouseController.update m1 S1) as [m2 calls2].
  cbn [fst snd] in *. split; [exact Hrep|reflexivity].
Qed.

End DispatchLoop.
